(** * Sensor platform of the Omada integration

    A shallow embedding of [custom_components/omada/sensor.py]: the
    accessor ("value") functions, the two descriptor tables
    [CLIENT_ENTITY_DESCRIPTIONS] and [DEVICE_ENTITY_DESCRIPTIONS], and the
    entity wrapper [OmadaSensorEntity] with its constructor and
    [async_update].

    Python dictionaries keyed by MAC address are [gmap string _]; a failed
    subscript [d[mac]] raises [KeyError]; reading the wall clock is an
    explicit reader effect. *)

From Stdlib Require Import ZArith QArith Lia.
From stdpp Require Import base option list strings gmap fin_maps.

Local Open Scope Z_scope.
Local Open Scope string_scope.

(** ** Exceptions and the effect monad *)

Inductive exn : Type :=
| KeyError (k : string).

Inductive result (A : Type) : Type :=
| Ok (a : A)
| Raise (e : exn).
Arguments Ok {A} a.
Arguments Raise {A} e.

Definition is_ok {A} (r : result A) : bool :=
  match r with Ok _ => true | Raise _ => false end.

(** A [tzinfo] object. It is identified by its key (one object per zone)
    and gives the offset from UTC, in microseconds, of a wall-clock reading
    in its zone; [fold] tells the two passes through a repeated hour
    apart. *)
Record tzinfo : Type := {
  tz_key : string;
  utcoffset : Z -> bool -> Z
}.

(** [a is b] on [tzinfo] objects. *)
Definition same_tzinfo (a b : tzinfo) : bool := String.eqb (tz_key a) (tz_key b).

(** An aware [datetime]: the wall-clock reading (year to microsecond, as
    microseconds since 1970-01-01T00:00:00 on that wall clock), the
    [fold] attribute and the [tzinfo] attribute. A [timedelta] is a signed
    number of microseconds. *)
Record datetime : Type := {
  dt_wall : Z;
  dt_fold : bool;
  dt_tzinfo : tzinfo
}.
Record timedelta : Type := { td_micros : Z }.

(** [d.utcoffset()] *)
Definition datetime_utcoffset (d : datetime) : Z :=
  utcoffset (dt_tzinfo d) (dt_wall d) (dt_fold d).

(** The instant [d] denotes, in microseconds since the epoch (UTC). *)
Definition utc_micros (d : datetime) : Z := dt_wall d - datetime_utcoffset d.

(** [timedelta(seconds=s)] for an integer [s]. *)
Definition timedelta_seconds (s : Z) : timedelta :=
  {| td_micros := s * 1000000 |}.

(** [d - t] for a [datetime] [d] and a [timedelta] [t]: the arithmetic
    is done on the wall-clock reading, the result keeps the [tzinfo] of
    [d] and has [fold] 0; no offset is adjusted. Results outside the
    years 1 to 9999, on which the subtraction raises [OverflowError], are
    not modelled. *)
Definition datetime_sub (d : datetime) (t : timedelta) : datetime :=
  {| dt_wall := dt_wall d - td_micros t;
     dt_fold := false;
     dt_tzinfo := dt_tzinfo d |}.

(** [d == e] on aware datetimes. With one and the same [tzinfo] the
    wall-clock readings are compared and [fold] is ignored. Otherwise a
    datetime whose offset depends on its [fold] equals nothing; with equal
    offsets the wall-clock readings are compared, and with different
    offsets the instants. *)
Definition datetime_eq (d e : datetime) : bool :=
  if same_tzinfo (dt_tzinfo d) (dt_tzinfo e) then
    Z.eqb (dt_wall d) (dt_wall e)
  else
    let myoff := datetime_utcoffset d in
    let otoff := datetime_utcoffset e in
    if negb (Z.eqb myoff (utcoffset (dt_tzinfo d) (dt_wall d) (negb (dt_fold d)))) then
      false
    else if negb (Z.eqb otoff (utcoffset (dt_tzinfo e) (dt_wall e) (negb (dt_fold e)))) then
      false
    else if Z.eqb myoff otoff then
      Z.eqb (dt_wall d) (dt_wall e)
    else
      Z.eqb (dt_wall d - dt_wall e + otoff - myoff) 0.

(** Code of the module runs with the clock at hand, read as the aware
    datetime [dt_util.now()] returns in the configured time zone, and
    either returns or raises. *)
Definition Eff (A : Type) : Type := datetime -> result A.

Definition ret {A} (a : A) : Eff A := fun _ => Ok a.

Definition raise {A} (e : exn) : Eff A := fun _ => Raise e.

Definition bind {A B} (m : Eff A) (k : A -> Eff B) : Eff B :=
  fun clock =>
    match m clock with
    | Ok a => k a clock
    | Raise e => Raise e
    end.

Notation "x <~ m ;; k" := (bind m (fun x => k))
  (at level 100, m at next level, right associativity).

(** [dt_util.now()] *)
Definition dt_util_now : Eff datetime := fun clock => Ok clock.

(** [d[k]] on a dictionary: the stored value, or [KeyError(k)]. *)
Definition getitem {V} (d : gmap string V) (k : string) : Eff V :=
  match d !! k with
  | Some v => ret v
  | None => raise (KeyError k)
  end.

(** [k in d] on a dictionary. *)
Definition contains {V} (d : gmap string V) (k : string) : bool :=
  match d !! k with
  | Some _ => true
  | None => false
  end.

(** ** Values published by a sensor

    [value_fn] is typed [datetime | float | int | None]. The float
    produced by [n / 1000000] on an integer [n] is the binary64 number
    nearest to the exact quotient; the embedding keeps the exact quotient
    as a rational. *)
Inductive value : Type :=
| VNone
| VInt (n : Z)
| VFloat (q : Q)
| VDatetime (d : datetime).

(** [a / b] (true division) of an integer by a positive integer literal. *)
Definition truediv (a : Z) (b : positive) : Q := a # b.

(** Python's [==] on these values: numbers compare by numeric value across
    [int] and [float], datetimes by [datetime_eq], [None] only equals
    [None]. *)
Definition py_eq (x y : value) : bool :=
  match x, y with
  | VNone, VNone => true
  | VInt a, VInt b => Z.eqb a b
  | VInt a, VFloat q => Qeq_bool (inject_Z a) q
  | VFloat q, VInt b => Qeq_bool q (inject_Z b)
  | VFloat p, VFloat q => Qeq_bool p q
  | VDatetime d, VDatetime e => datetime_eq d e
  | _, _ => false
  end.

(** Python's [!=]. *)
Definition py_ne (x y : value) : bool := negb (py_eq x y).

(** ** Controller state

    The controller and the records it holds are defined outside
    [sensor.py]; only the attributes this file reads are modelled. *)

Module Client.
(** Modelled from the spec: a connected client record of
    [controller.api.clients], "holding counters (download/upload bytes,
    rx/tx rate, uptime seconds)". Only [rx_rate], [tx_rate] and [uptime]
    are read through this mapping. *)
Record t : Type := {
  rx_rate : Z;
  tx_rate : Z;
  uptime : Z
}.
End Client.

Module KnownClient.
(** Modelled from the spec: a record of [controller.api.known_clients],
    read for its [download] and [upload] byte counters. *)
Record t : Type := {
  download : Z;
  upload : Z
}.
End KnownClient.

Module Device.
(** Modelled from the spec: a device record of [controller.api.devices]
    ([api/devices.py], class [Device]): byte counters, rates, uptime
    seconds, cpu/memory percent, client counts and utilization percentages
    per band, and one enabled flag per radio band. *)
Record t : Type := {
  download : Z;
  upload : Z;
  rx_rate : Z;
  tx_rate : Z;
  cpu : Z;
  memory : Z;
  uptime : Z;
  clients : Z;
  clients_2ghz : Z;
  clients_5ghz : Z;
  clients_6ghz : Z;
  tx_utilization_2ghz : Z;
  tx_utilization_5ghz : Z;
  tx_utilization_6ghz : Z;
  rx_utilization_2ghz : Z;
  rx_utilization_5ghz : Z;
  rx_utilization_6ghz : Z;
  interference_utilization_2ghz : Z;
  interference_utilization_5ghz : Z;
  interference_utilization_6ghz : Z;
  radio_enabled_2ghz : bool;
  radio_enabled_5ghz : bool;
  radio_enabled_6ghz : bool
}.
End Device.

(** [controller.api] *)
Record Api : Type := {
  clients : gmap string Client.t;
  known_clients : gmap string KnownClient.t;
  devices : gmap string Device.t
}.

(** Modelled from the spec: the attributes of [OmadaController]
    ([controller.py]) that the descriptors read: the connection-health
    flag, the option flags and the client filter. *)
Record OmadaController : Type := {
  api : Api;
  available : bool;
  option_track_clients : bool;
  option_track_devices : bool;
  option_client_bandwidth_sensors : bool;
  option_client_uptime_sensor : bool;
  option_device_bandwidth_sensors : bool;
  option_device_statistics_sensors : bool;
  option_device_clients_sensors : bool;
  option_device_radio_utilization_sensors : bool;
  is_client_allowed : string -> bool
}.

(** ** Sensor keys *)

Definition DOWNLOAD_SENSOR := "downloaded".
Definition UPLOAD_SENSOR := "uploaded".
Definition UPTIME_SENSOR := "uptime".
Definition RX_SENSOR := "rx".
Definition TX_SENSOR := "tx".
Definition CPU_USAGE_SENSOR := "cpu_usage".
Definition MEMORY_USAGE_SENSOR := "memory_usage".
Definition CLIENTS_SENSOR := "clients".
Definition CLIENTS_2G_SENSOR := "2ghz_clients".
Definition CLIENTS_5G_SENSOR := "5ghz_clients".
Definition CLIENTS_6G_SENSOR := "6ghz_clients".
Definition TX_UTILIZATION_2G_SENSOR := "2ghz_tx_utilization".
Definition TX_UTILIZATION_5G_SENSOR := "5ghz_tx_utilization".
Definition TX_UTILIZATION_6G_SENSOR := "6ghz_tx_utilization".
Definition RX_UTILIZATION_2G_SENSOR := "2ghz_rx_utilization".
Definition RX_UTILIZATION_5G_SENSOR := "5ghz_rx_utilization".
Definition RX_UTILIZATION_6G_SENSOR := "6ghz_rx_utilization".
Definition INTER_UTILIZATION_2G_SENSOR := "2ghz_interference_utilization".
Definition INTER_UTILIZATION_5G_SENSOR := "5ghz_interference_utilization".
Definition INTER_UTILIZATION_6G_SENSOR := "6ghz_interference_utilization".

(** ** Value functions *)

Definition client_download_value_fn (controller : OmadaController) (mac : string) : Eff value :=
  r <~ getitem (known_clients (api controller)) mac ;;
  ret (VFloat (truediv (KnownClient.download r) 1000000)).

Definition client_upload_value_fn (controller : OmadaController) (mac : string) : Eff value :=
  r <~ getitem (known_clients (api controller)) mac ;;
  ret (VFloat (truediv (KnownClient.upload r) 1000000)).

Definition client_rx_value_fn (controller : OmadaController) (mac : string) : Eff value :=
  if contains (clients (api controller)) mac then
    r <~ getitem (clients (api controller)) mac ;;
    ret (VFloat (truediv (Client.rx_rate r) 1000000))
  else
    ret (VInt 0).

Definition client_tx_value_fn (controller : OmadaController) (mac : string) : Eff value :=
  if contains (clients (api controller)) mac then
    r <~ getitem (clients (api controller)) mac ;;
    ret (VFloat (truediv (Client.tx_rate r) 1000000))
  else
    ret (VInt 0).

Definition client_uptime_value_fn (controller : OmadaController) (mac : string) : Eff value :=
  if contains (clients (api controller)) mac then
    now <~ dt_util_now ;;
    r <~ getitem (clients (api controller)) mac ;;
    ret (VDatetime (datetime_sub now (timedelta_seconds (Client.uptime r))))
  else
    ret VNone.

Definition device_download_value_fn (controller : OmadaController) (mac : string) : Eff value :=
  r <~ getitem (devices (api controller)) mac ;;
  ret (VFloat (truediv (Device.download r) 1000000)).

Definition device_upload_value_fn (controller : OmadaController) (mac : string) : Eff value :=
  r <~ getitem (devices (api controller)) mac ;;
  ret (VFloat (truediv (Device.upload r) 1000000)).

Definition device_rx_value_fn (controller : OmadaController) (mac : string) : Eff value :=
  r <~ getitem (devices (api controller)) mac ;;
  ret (VFloat (truediv (Device.rx_rate r) 1000000)).

Definition device_tx_value_fn (controller : OmadaController) (mac : string) : Eff value :=
  r <~ getitem (devices (api controller)) mac ;;
  ret (VFloat (truediv (Device.tx_rate r) 1000000)).

Definition device_cpu_value_fn (controller : OmadaController) (mac : string) : Eff value :=
  r <~ getitem (devices (api controller)) mac ;;
  ret (VInt (Device.cpu r)).

Definition device_memory_value_fn (controller : OmadaController) (mac : string) : Eff value :=
  r <~ getitem (devices (api controller)) mac ;;
  ret (VInt (Device.memory r)).

Definition device_uptime_value_fn (controller : OmadaController) (mac : string) : Eff value :=
  now <~ dt_util_now ;;
  r <~ getitem (devices (api controller)) mac ;;
  ret (VDatetime (datetime_sub now (timedelta_seconds (Device.uptime r)))).

Definition device_clients_value_fn (controller : OmadaController) (mac : string) : Eff value :=
  r <~ getitem (devices (api controller)) mac ;;
  ret (VInt (Device.clients r)).

Definition device_clients_2g_value_fn (controller : OmadaController) (mac : string) : Eff value :=
  r <~ getitem (devices (api controller)) mac ;;
  ret (VInt (Device.clients_2ghz r)).

Definition device_clients_5g_value_fn (controller : OmadaController) (mac : string) : Eff value :=
  r <~ getitem (devices (api controller)) mac ;;
  ret (VInt (Device.clients_5ghz r)).

Definition device_clients_6g_value_fn (controller : OmadaController) (mac : string) : Eff value :=
  r <~ getitem (devices (api controller)) mac ;;
  ret (VInt (Device.clients_6ghz r)).

Definition device_tx_utilization_2g_value_fn (controller : OmadaController) (mac : string) : Eff value :=
  r <~ getitem (devices (api controller)) mac ;;
  ret (VInt (Device.tx_utilization_2ghz r)).

Definition device_tx_utilization_5g_value_fn (controller : OmadaController) (mac : string) : Eff value :=
  r <~ getitem (devices (api controller)) mac ;;
  ret (VInt (Device.tx_utilization_5ghz r)).

Definition device_tx_utilization_6g_value_fn (controller : OmadaController) (mac : string) : Eff value :=
  r <~ getitem (devices (api controller)) mac ;;
  ret (VInt (Device.tx_utilization_6ghz r)).

Definition device_rx_utilization_2g_value_fn (controller : OmadaController) (mac : string) : Eff value :=
  r <~ getitem (devices (api controller)) mac ;;
  ret (VInt (Device.rx_utilization_2ghz r)).

Definition device_rx_utilization_5g_value_fn (controller : OmadaController) (mac : string) : Eff value :=
  r <~ getitem (devices (api controller)) mac ;;
  ret (VInt (Device.rx_utilization_5ghz r)).

Definition device_rx_utilization_6g_value_fn (controller : OmadaController) (mac : string) : Eff value :=
  r <~ getitem (devices (api controller)) mac ;;
  ret (VInt (Device.rx_utilization_6ghz r)).

Definition device_inter_utilization_2g_value_fn (controller : OmadaController) (mac : string) : Eff value :=
  r <~ getitem (devices (api controller)) mac ;;
  ret (VInt (Device.interference_utilization_2ghz r)).

Definition device_inter_utilization_5g_value_fn (controller : OmadaController) (mac : string) : Eff value :=
  r <~ getitem (devices (api controller)) mac ;;
  ret (VInt (Device.interference_utilization_5ghz r)).

Definition device_inter_utilization_6g_value_fn (controller : OmadaController) (mac : string) : Eff value :=
  r <~ getitem (devices (api controller)) mac ;;
  ret (VInt (Device.interference_utilization_6ghz r)).

(** ** Descriptors *)

(** [homeassistant.components.sensor.DOMAIN] *)
Definition DOMAIN := "sensor".

Inductive EntityCategory : Type :=
| EntityCategory_CONFIG
| EntityCategory_DIAGNOSTIC.

(** The units of measurement bound by the tables; [CLIENTS] comes from
    the integration's own constants. *)
Inductive UnitOfMeasurement : Type :=
| UnitOfInformation_MEGABYTES
| UnitOfDataRate_MEGABYTES_PER_SECOND
| PERCENTAGE
| CLIENTS.

Inductive SensorDeviceClass : Type :=
| DEVICE_CLASS_TIMESTAMP.

(** Functions imported from [omada_entity] and bound by name in the
    tables; their bodies are not part of this file. *)
Inductive ImportedFn : Type :=
| client_device_info_fn
| device_device_info_fn
| unique_id_fn_imported.

(** Python's [a and b] on the boolean option flags is [&&]. *)
Record OmadaSensorEntityDescription : Type := {
  domain : string;
  key : string;
  entity_category : EntityCategory;
  native_unit_of_measurement : option UnitOfMeasurement;
  device_class : option SensorDeviceClass;
  has_entity_name : bool;
  allowed_fn : OmadaController -> string -> bool;
  supported_fn : OmadaController -> string -> Eff bool;
  available_fn : OmadaController -> string -> bool;
  device_info_fn : ImportedFn;
  name_fn : OmadaController -> string -> string;
  unique_id_fn : ImportedFn;
  value_fn : OmadaController -> string -> Eff value
}.

(** The tables are dictionary literals with pairwise distinct keys, kept
    in source order as key-descriptor pairs. *)
Definition CLIENT_ENTITY_DESCRIPTIONS : list (string * OmadaSensorEntityDescription) := [
  (DOWNLOAD_SENSOR, {|
     domain := DOMAIN;
     key := DOWNLOAD_SENSOR;
     entity_category := EntityCategory_DIAGNOSTIC;
     native_unit_of_measurement := Some UnitOfInformation_MEGABYTES;
     device_class := None;
     has_entity_name := true;
     allowed_fn := fun controller mac =>
       option_client_bandwidth_sensors controller && option_track_clients controller && is_client_allowed controller mac;
     supported_fn := fun _ _ => ret true;
     available_fn := fun controller _ => available controller;
     device_info_fn := client_device_info_fn;
     name_fn := fun _ _ => "Downloaded";
     unique_id_fn := unique_id_fn_imported;
     value_fn := client_download_value_fn
   |});
  (UPLOAD_SENSOR, {|
     domain := DOMAIN;
     key := UPLOAD_SENSOR;
     entity_category := EntityCategory_DIAGNOSTIC;
     native_unit_of_measurement := Some UnitOfInformation_MEGABYTES;
     device_class := None;
     has_entity_name := true;
     allowed_fn := fun controller mac =>
       option_client_bandwidth_sensors controller && option_track_clients controller && is_client_allowed controller mac;
     supported_fn := fun _ _ => ret true;
     available_fn := fun controller _ => available controller;
     device_info_fn := client_device_info_fn;
     name_fn := fun _ _ => "Uploaded";
     unique_id_fn := unique_id_fn_imported;
     value_fn := client_upload_value_fn
   |});
  (RX_SENSOR, {|
     domain := DOMAIN;
     key := RX_SENSOR;
     entity_category := EntityCategory_DIAGNOSTIC;
     native_unit_of_measurement := Some UnitOfDataRate_MEGABYTES_PER_SECOND;
     device_class := None;
     has_entity_name := true;
     allowed_fn := fun controller mac =>
       option_client_bandwidth_sensors controller && option_track_clients controller && is_client_allowed controller mac;
     supported_fn := fun _ _ => ret true;
     available_fn := fun controller _ => available controller;
     device_info_fn := client_device_info_fn;
     name_fn := fun _ _ => "RX Activity";
     unique_id_fn := unique_id_fn_imported;
     value_fn := client_rx_value_fn
   |});
  (TX_SENSOR, {|
     domain := DOMAIN;
     key := TX_SENSOR;
     entity_category := EntityCategory_DIAGNOSTIC;
     native_unit_of_measurement := Some UnitOfDataRate_MEGABYTES_PER_SECOND;
     device_class := None;
     has_entity_name := true;
     allowed_fn := fun controller mac =>
       option_client_bandwidth_sensors controller && option_track_clients controller && is_client_allowed controller mac;
     supported_fn := fun _ _ => ret true;
     available_fn := fun controller _ => available controller;
     device_info_fn := client_device_info_fn;
     name_fn := fun _ _ => "TX Activity";
     unique_id_fn := unique_id_fn_imported;
     value_fn := client_tx_value_fn
   |});
  (UPTIME_SENSOR, {|
     domain := DOMAIN;
     key := UPTIME_SENSOR;
     entity_category := EntityCategory_DIAGNOSTIC;
     native_unit_of_measurement := None;
     device_class := Some DEVICE_CLASS_TIMESTAMP;
     has_entity_name := true;
     allowed_fn := fun controller mac =>
       option_client_uptime_sensor controller && option_track_clients controller && is_client_allowed controller mac;
     supported_fn := fun _ _ => ret true;
     available_fn := fun controller _ => available controller;
     device_info_fn := client_device_info_fn;
     name_fn := fun _ _ => "Uptime";
     unique_id_fn := unique_id_fn_imported;
     value_fn := client_uptime_value_fn
   |})
].

Definition DEVICE_ENTITY_DESCRIPTIONS : list (string * OmadaSensorEntityDescription) := [
  (DOWNLOAD_SENSOR, {|
     domain := DOMAIN;
     key := DOWNLOAD_SENSOR;
     entity_category := EntityCategory_DIAGNOSTIC;
     native_unit_of_measurement := Some UnitOfInformation_MEGABYTES;
     device_class := None;
     has_entity_name := true;
     allowed_fn := fun controller _ =>
       option_device_bandwidth_sensors controller && option_track_devices controller;
     supported_fn := fun _ _ => ret true;
     available_fn := fun controller _ => available controller;
     device_info_fn := device_device_info_fn;
     name_fn := fun _ _ => "Downloaded";
     unique_id_fn := unique_id_fn_imported;
     value_fn := device_download_value_fn
   |});
  (UPLOAD_SENSOR, {|
     domain := DOMAIN;
     key := UPLOAD_SENSOR;
     entity_category := EntityCategory_DIAGNOSTIC;
     native_unit_of_measurement := Some UnitOfInformation_MEGABYTES;
     device_class := None;
     has_entity_name := true;
     allowed_fn := fun controller _ =>
       option_device_bandwidth_sensors controller && option_track_devices controller;
     supported_fn := fun _ _ => ret true;
     available_fn := fun controller _ => available controller;
     device_info_fn := device_device_info_fn;
     name_fn := fun _ _ => "Uploaded";
     unique_id_fn := unique_id_fn_imported;
     value_fn := device_upload_value_fn
   |});
  (RX_SENSOR, {|
     domain := DOMAIN;
     key := RX_SENSOR;
     entity_category := EntityCategory_DIAGNOSTIC;
     native_unit_of_measurement := Some UnitOfDataRate_MEGABYTES_PER_SECOND;
     device_class := None;
     has_entity_name := true;
     allowed_fn := fun controller _ =>
       option_device_bandwidth_sensors controller && option_track_devices controller;
     supported_fn := fun _ _ => ret true;
     available_fn := fun controller _ => available controller;
     device_info_fn := device_device_info_fn;
     name_fn := fun _ _ => "RX Activity";
     unique_id_fn := unique_id_fn_imported;
     value_fn := device_rx_value_fn
   |});
  (TX_SENSOR, {|
     domain := DOMAIN;
     key := TX_SENSOR;
     entity_category := EntityCategory_DIAGNOSTIC;
     native_unit_of_measurement := Some UnitOfDataRate_MEGABYTES_PER_SECOND;
     device_class := None;
     has_entity_name := true;
     allowed_fn := fun controller _ =>
       option_device_bandwidth_sensors controller && option_track_devices controller;
     supported_fn := fun _ _ => ret true;
     available_fn := fun controller _ => available controller;
     device_info_fn := device_device_info_fn;
     name_fn := fun _ _ => "TX Activity";
     unique_id_fn := unique_id_fn_imported;
     value_fn := device_tx_value_fn
   |});
  (CPU_USAGE_SENSOR, {|
     domain := DOMAIN;
     key := CPU_USAGE_SENSOR;
     entity_category := EntityCategory_DIAGNOSTIC;
     native_unit_of_measurement := Some PERCENTAGE;
     device_class := None;
     has_entity_name := true;
     allowed_fn := fun controller _ =>
       option_device_statistics_sensors controller && option_track_devices controller;
     supported_fn := fun _ _ => ret true;
     available_fn := fun controller _ => available controller;
     device_info_fn := device_device_info_fn;
     name_fn := fun _ _ => "CPU Usage";
     unique_id_fn := unique_id_fn_imported;
     value_fn := device_cpu_value_fn
   |});
  (MEMORY_USAGE_SENSOR, {|
     domain := DOMAIN;
     key := MEMORY_USAGE_SENSOR;
     entity_category := EntityCategory_DIAGNOSTIC;
     native_unit_of_measurement := Some PERCENTAGE;
     device_class := None;
     has_entity_name := true;
     allowed_fn := fun controller _ =>
       option_device_statistics_sensors controller && option_track_devices controller;
     supported_fn := fun _ _ => ret true;
     available_fn := fun controller _ => available controller;
     device_info_fn := device_device_info_fn;
     name_fn := fun _ _ => "Memory Usage";
     unique_id_fn := unique_id_fn_imported;
     value_fn := device_memory_value_fn
   |});
  (UPTIME_SENSOR, {|
     domain := DOMAIN;
     key := UPTIME_SENSOR;
     entity_category := EntityCategory_DIAGNOSTIC;
     native_unit_of_measurement := None;
     device_class := Some DEVICE_CLASS_TIMESTAMP;
     has_entity_name := true;
     allowed_fn := fun controller _ =>
       option_device_statistics_sensors controller && option_track_devices controller;
     supported_fn := fun _ _ => ret true;
     available_fn := fun controller _ => available controller;
     device_info_fn := device_device_info_fn;
     name_fn := fun _ _ => "Uptime";
     unique_id_fn := unique_id_fn_imported;
     value_fn := device_uptime_value_fn
   |});
  (CLIENTS_SENSOR, {|
     domain := DOMAIN;
     key := CLIENTS_SENSOR;
     entity_category := EntityCategory_DIAGNOSTIC;
     native_unit_of_measurement := Some CLIENTS;
     device_class := None;
     has_entity_name := true;
     allowed_fn := fun controller _ =>
       option_device_clients_sensors controller && option_track_devices controller;
     supported_fn := fun _ _ => ret true;
     available_fn := fun controller _ => available controller;
     device_info_fn := device_device_info_fn;
     name_fn := fun _ _ => "Clients";
     unique_id_fn := unique_id_fn_imported;
     value_fn := device_clients_value_fn
   |});
  (CLIENTS_2G_SENSOR, {|
     domain := DOMAIN;
     key := CLIENTS_2G_SENSOR;
     entity_category := EntityCategory_DIAGNOSTIC;
     native_unit_of_measurement := Some CLIENTS;
     device_class := None;
     has_entity_name := true;
     allowed_fn := fun controller _ =>
       option_device_clients_sensors controller && option_track_devices controller;
     supported_fn := fun controller mac =>
       r <~ getitem (devices (api controller)) mac ;; ret (Device.radio_enabled_2ghz r);
     available_fn := fun controller _ => available controller;
     device_info_fn := device_device_info_fn;
     name_fn := fun _ _ => "2.4Ghz Clients";
     unique_id_fn := unique_id_fn_imported;
     value_fn := device_clients_2g_value_fn
   |});
  (CLIENTS_5G_SENSOR, {|
     domain := DOMAIN;
     key := CLIENTS_5G_SENSOR;
     entity_category := EntityCategory_DIAGNOSTIC;
     native_unit_of_measurement := Some CLIENTS;
     device_class := None;
     has_entity_name := true;
     allowed_fn := fun controller _ =>
       option_device_clients_sensors controller && option_track_devices controller;
     supported_fn := fun controller mac =>
       r <~ getitem (devices (api controller)) mac ;; ret (Device.radio_enabled_5ghz r);
     available_fn := fun controller _ => available controller;
     device_info_fn := device_device_info_fn;
     name_fn := fun _ _ => "5Ghz Clients";
     unique_id_fn := unique_id_fn_imported;
     value_fn := device_clients_5g_value_fn
   |});
  (CLIENTS_6G_SENSOR, {|
     domain := DOMAIN;
     key := CLIENTS_6G_SENSOR;
     entity_category := EntityCategory_DIAGNOSTIC;
     native_unit_of_measurement := Some CLIENTS;
     device_class := None;
     has_entity_name := true;
     allowed_fn := fun controller _ =>
       option_device_clients_sensors controller && option_track_devices controller;
     supported_fn := fun controller mac =>
       r <~ getitem (devices (api controller)) mac ;; ret (Device.radio_enabled_6ghz r);
     available_fn := fun controller _ => available controller;
     device_info_fn := device_device_info_fn;
     name_fn := fun _ _ => "6Ghz Clients";
     unique_id_fn := unique_id_fn_imported;
     value_fn := device_clients_6g_value_fn
   |});
  (TX_UTILIZATION_2G_SENSOR, {|
     domain := DOMAIN;
     key := TX_UTILIZATION_2G_SENSOR;
     entity_category := EntityCategory_DIAGNOSTIC;
     native_unit_of_measurement := Some PERCENTAGE;
     device_class := None;
     has_entity_name := true;
     allowed_fn := fun controller _ =>
       option_device_radio_utilization_sensors controller && option_track_devices controller;
     supported_fn := fun _ _ => ret true;
     available_fn := fun controller _ => available controller;
     device_info_fn := device_device_info_fn;
     name_fn := fun _ _ => "2.4Ghz TX Utilization";
     unique_id_fn := unique_id_fn_imported;
     value_fn := device_tx_utilization_2g_value_fn
   |});
  (TX_UTILIZATION_5G_SENSOR, {|
     domain := DOMAIN;
     key := TX_UTILIZATION_5G_SENSOR;
     entity_category := EntityCategory_DIAGNOSTIC;
     native_unit_of_measurement := Some PERCENTAGE;
     device_class := None;
     has_entity_name := true;
     allowed_fn := fun controller _ =>
       option_device_radio_utilization_sensors controller && option_track_devices controller;
     supported_fn := fun controller mac =>
       r <~ getitem (devices (api controller)) mac ;; ret (Device.radio_enabled_5ghz r);
     available_fn := fun controller _ => available controller;
     device_info_fn := device_device_info_fn;
     name_fn := fun _ _ => "5Ghz TX Utilization";
     unique_id_fn := unique_id_fn_imported;
     value_fn := device_tx_utilization_5g_value_fn
   |});
  (TX_UTILIZATION_6G_SENSOR, {|
     domain := DOMAIN;
     key := TX_UTILIZATION_6G_SENSOR;
     entity_category := EntityCategory_DIAGNOSTIC;
     native_unit_of_measurement := Some PERCENTAGE;
     device_class := None;
     has_entity_name := true;
     allowed_fn := fun controller _ =>
       option_device_radio_utilization_sensors controller && option_track_devices controller;
     supported_fn := fun controller mac =>
       r <~ getitem (devices (api controller)) mac ;; ret (Device.radio_enabled_6ghz r);
     available_fn := fun controller _ => available controller;
     device_info_fn := device_device_info_fn;
     name_fn := fun _ _ => "6Ghz TX Utilization";
     unique_id_fn := unique_id_fn_imported;
     value_fn := device_tx_utilization_6g_value_fn
   |});
  (RX_UTILIZATION_2G_SENSOR, {|
     domain := DOMAIN;
     key := RX_UTILIZATION_2G_SENSOR;
     entity_category := EntityCategory_DIAGNOSTIC;
     native_unit_of_measurement := Some PERCENTAGE;
     device_class := None;
     has_entity_name := true;
     allowed_fn := fun controller _ =>
       option_device_radio_utilization_sensors controller && option_track_devices controller;
     supported_fn := fun controller mac =>
       r <~ getitem (devices (api controller)) mac ;; ret (Device.radio_enabled_2ghz r);
     available_fn := fun controller _ => available controller;
     device_info_fn := device_device_info_fn;
     name_fn := fun _ _ => "2.4Ghz RX Utilization";
     unique_id_fn := unique_id_fn_imported;
     value_fn := device_rx_utilization_2g_value_fn
   |});
  (RX_UTILIZATION_5G_SENSOR, {|
     domain := DOMAIN;
     key := RX_UTILIZATION_5G_SENSOR;
     entity_category := EntityCategory_DIAGNOSTIC;
     native_unit_of_measurement := Some PERCENTAGE;
     device_class := None;
     has_entity_name := true;
     allowed_fn := fun controller _ =>
       option_device_radio_utilization_sensors controller && option_track_devices controller;
     supported_fn := fun controller mac =>
       r <~ getitem (devices (api controller)) mac ;; ret (Device.radio_enabled_5ghz r);
     available_fn := fun controller _ => available controller;
     device_info_fn := device_device_info_fn;
     name_fn := fun _ _ => "5Ghz RX Utilization";
     unique_id_fn := unique_id_fn_imported;
     value_fn := device_rx_utilization_5g_value_fn
   |});
  (RX_UTILIZATION_6G_SENSOR, {|
     domain := DOMAIN;
     key := RX_UTILIZATION_6G_SENSOR;
     entity_category := EntityCategory_DIAGNOSTIC;
     native_unit_of_measurement := Some PERCENTAGE;
     device_class := None;
     has_entity_name := true;
     allowed_fn := fun controller _ =>
       option_device_radio_utilization_sensors controller && option_track_devices controller;
     supported_fn := fun controller mac =>
       r <~ getitem (devices (api controller)) mac ;; ret (Device.radio_enabled_6ghz r);
     available_fn := fun controller _ => available controller;
     device_info_fn := device_device_info_fn;
     name_fn := fun _ _ => "6Ghz RX Utilization";
     unique_id_fn := unique_id_fn_imported;
     value_fn := device_rx_utilization_6g_value_fn
   |});
  (INTER_UTILIZATION_2G_SENSOR, {|
     domain := DOMAIN;
     key := INTER_UTILIZATION_2G_SENSOR;
     entity_category := EntityCategory_DIAGNOSTIC;
     native_unit_of_measurement := Some PERCENTAGE;
     device_class := None;
     has_entity_name := true;
     allowed_fn := fun controller _ =>
       option_device_radio_utilization_sensors controller && option_track_devices controller;
     supported_fn := fun _ _ => ret true;
     available_fn := fun controller _ => available controller;
     device_info_fn := device_device_info_fn;
     name_fn := fun _ _ => "2.4Ghz Interference";
     unique_id_fn := unique_id_fn_imported;
     value_fn := device_inter_utilization_2g_value_fn
   |});
  (INTER_UTILIZATION_5G_SENSOR, {|
     domain := DOMAIN;
     key := INTER_UTILIZATION_5G_SENSOR;
     entity_category := EntityCategory_DIAGNOSTIC;
     native_unit_of_measurement := Some PERCENTAGE;
     device_class := None;
     has_entity_name := true;
     allowed_fn := fun controller _ =>
       option_device_radio_utilization_sensors controller && option_track_devices controller;
     supported_fn := fun controller mac =>
       r <~ getitem (devices (api controller)) mac ;; ret (Device.radio_enabled_5ghz r);
     available_fn := fun controller _ => available controller;
     device_info_fn := device_device_info_fn;
     name_fn := fun _ _ => "5Ghz Interference";
     unique_id_fn := unique_id_fn_imported;
     value_fn := device_inter_utilization_5g_value_fn
   |});
  (INTER_UTILIZATION_6G_SENSOR, {|
     domain := DOMAIN;
     key := INTER_UTILIZATION_6G_SENSOR;
     entity_category := EntityCategory_DIAGNOSTIC;
     native_unit_of_measurement := Some PERCENTAGE;
     device_class := None;
     has_entity_name := true;
     allowed_fn := fun controller _ =>
       option_device_radio_utilization_sensors controller && option_track_devices controller;
     supported_fn := fun controller mac =>
       r <~ getitem (devices (api controller)) mac ;; ret (Device.radio_enabled_6ghz r);
     available_fn := fun controller _ => available controller;
     device_info_fn := device_device_info_fn;
     name_fn := fun _ _ => "6Ghz Interference";
     unique_id_fn := unique_id_fn_imported;
     value_fn := device_inter_utilization_6g_value_fn
   |})
].

(** [d[k]] on a table. *)
Fixpoint table_get (tbl : list (string * OmadaSensorEntityDescription)) (k : string)
  : option OmadaSensorEntityDescription :=
  match tbl with
  | [] => None
  | (k', d) :: rest => if String.eqb k' k then Some d else table_get rest k
  end.

(** ** The entity wrapper *)

(** Modelled from the spec: what [async_update] hands on to the base
    class; [super().async_update()] of [OmadaEntity] republishes the
    entity. *)
Inductive event : Type :=
| SuperAsyncUpdate.

(** Modelled from the spec: the attributes the base class [OmadaEntity]
    ([omada_entity.py]) gives an entity, which "binds one descriptor to one
    MAC address" and "caches the last published value". The controller is
    a shared object polled elsewhere; every method below receives its
    current state. *)
Record OmadaSensorEntity : Type := {
  _mac : string;
  entity_description : OmadaSensorEntityDescription;
  _attr_native_value : value
}.

(** Modelled from the spec: [SensorEntity.native_value] of the host
    framework, the cached ("last published") value. *)
Definition native_value (self : OmadaSensorEntity) : value :=
  _attr_native_value self.

Definition set_attr_native_value (self : OmadaSensorEntity) (v : value) : OmadaSensorEntity :=
  {| _mac := _mac self;
     entity_description := entity_description self;
     _attr_native_value := v |}.

(** [OmadaSensorEntity.__init__]: the base constructor binds [mac] and
    [description], then the value is read once. *)
Definition init (mac : string) (controller : OmadaController)
    (description : OmadaSensorEntityDescription) : Eff OmadaSensorEntity :=
  v <~ value_fn description controller mac ;;
  ret {| _mac := mac;
         entity_description := description;
         _attr_native_value := v |}.

(** [OmadaSensorEntity.async_update]: returns the entity after the call
    and the updates propagated to the base class. *)
Definition async_update (self : OmadaSensorEntity) (controller : OmadaController)
  : Eff (OmadaSensorEntity * list event) :=
  v <~ value_fn (entity_description self) controller (_mac self) ;;
  if py_ne v (native_value self) then
    ret (set_attr_native_value self v, [SuperAsyncUpdate])
  else
    ret (self, []).

(** ** Sample states used to run the definitions *)

Definition UTC : tzinfo := {| tz_key := "UTC"; utcoffset := fun _ _ => 0 |}.

(** 2023-11-14T22:13:20+00:00 *)
Definition clock0 : datetime :=
  {| dt_wall := 1700000000000000; dt_fold := false; dt_tzinfo := UTC |}.

(** Europe/Amsterdam around the end of daylight saving time 2023: two
    hours ahead of UTC until the wall clock reaches 03:00 on 29 October,
    then set back to 02:00 and one hour ahead. Readings from 02:00 up to
    03:00 of that day occur twice and are told apart by [fold]. *)
Definition Europe_Amsterdam : tzinfo :=
  {| tz_key := "Europe/Amsterdam";
     utcoffset := fun wall fold =>
       if Z.ltb wall 1698544800000000 then 7200000000
       else if Z.ltb wall 1698548400000000 then
              (if fold then 3600000000 else 7200000000)
       else 3600000000 |}.

(** 2023-10-29T12:00:00+01:00 *)
Definition amsterdam_noon : datetime :=
  {| dt_wall := 1698580800000000; dt_fold := false; dt_tzinfo := Europe_Amsterdam |}.

(** 2023-10-29T02:59:59+02:00, and the same reading an hour later,
    2023-10-29T02:59:59+01:00. *)
Definition amsterdam_first_pass : datetime :=
  {| dt_wall := 1698548399000000; dt_fold := false; dt_tzinfo := Europe_Amsterdam |}.

Definition amsterdam_second_pass : datetime :=
  {| dt_wall := 1698548399000000; dt_fold := true; dt_tzinfo := Europe_Amsterdam |}.

Definition sample_client : Client.t :=
  {| Client.rx_rate := 2500000; Client.tx_rate := 0; Client.uptime := 90 |}.

Definition sample_known : KnownClient.t :=
  {| KnownClient.download := 1500000; KnownClient.upload := 42 |}.

(** An access point whose 2.4GHz radio is switched off. *)
Definition sample_device : Device.t :=
  {| Device.download := 7000000; Device.upload := 3; Device.rx_rate := 1;
     Device.tx_rate := 1000000; Device.cpu := 12; Device.memory := 57;
     Device.uptime := 3600; Device.clients := 4;
     Device.clients_2ghz := 0; Device.clients_5ghz := 3; Device.clients_6ghz := 1;
     Device.tx_utilization_2ghz := 0; Device.tx_utilization_5ghz := 9;
     Device.tx_utilization_6ghz := 2;
     Device.rx_utilization_2ghz := 0; Device.rx_utilization_5ghz := 11;
     Device.rx_utilization_6ghz := 5;
     Device.interference_utilization_2ghz := 0;
     Device.interference_utilization_5ghz := 20;
     Device.interference_utilization_6ghz := 1;
     Device.radio_enabled_2ghz := false;
     Device.radio_enabled_5ghz := true;
     Device.radio_enabled_6ghz := true |}.

Definition controller_with (a : Api) : OmadaController :=
  {| api := a;
     available := true;
     option_track_clients := true;
     option_track_devices := true;
     option_client_bandwidth_sensors := true;
     option_client_uptime_sensor := true;
     option_device_bandwidth_sensors := true;
     option_device_statistics_sensors := true;
     option_device_clients_sensors := true;
     option_device_radio_utilization_sensors := true;
     is_client_allowed := fun _ => true |}.

(** Nothing polled yet. *)
Definition empty_controller : OmadaController :=
  controller_with {| clients := ∅; known_clients := ∅; devices := ∅ |}.

(** One access point "AP", one connected client "C1" that is also known,
    and one known client "C2" that is not connected. *)
Definition sample_controller : OmadaController :=
  controller_with
    {| clients := {[ "C1" := sample_client ]};
       known_clients := <[ "C1" := sample_known ]> {[ "C2" := sample_known ]};
       devices := {[ "AP" := sample_device ]} |}.

(** The value function a table binds to a key, run on a state. *)
Definition run_value_fn (tbl : list (string * OmadaSensorEntityDescription))
    (k : string) (c : OmadaController) (mac : string) (clock : datetime)
  : option (result value) :=
  match table_get tbl k with
  | Some d => Some (value_fn d c mac clock)
  | None => None
  end.

(** The supported predicate a table binds to a key, run on a state. *)
Definition run_supported_fn (tbl : list (string * OmadaSensorEntityDescription))
    (k : string) (c : OmadaController) (mac : string) (clock : datetime)
  : option (result bool) :=
  match table_get tbl k with
  | Some d => Some (supported_fn d c mac clock)
  | None => None
  end.

(** ** Radio bands, as the per-band sensors are named *)

Inductive Band : Type := Band2G | Band5G | Band6G.

Definition radio_enabled (b : Band) (r : Device.t) : bool :=
  match b with
  | Band2G => Device.radio_enabled_2ghz r
  | Band5G => Device.radio_enabled_5ghz r
  | Band6G => Device.radio_enabled_6ghz r
  end.

(** The per-band device sensors with the band each one reports on. *)
Definition BAND_SENSORS : list (string * Band) := [
  (CLIENTS_2G_SENSOR, Band2G);
  (CLIENTS_5G_SENSOR, Band5G);
  (CLIENTS_6G_SENSOR, Band6G);
  (TX_UTILIZATION_2G_SENSOR, Band2G);
  (TX_UTILIZATION_5G_SENSOR, Band5G);
  (TX_UTILIZATION_6G_SENSOR, Band6G);
  (RX_UTILIZATION_2G_SENSOR, Band2G);
  (RX_UTILIZATION_5G_SENSOR, Band5G);
  (RX_UTILIZATION_6G_SENSOR, Band6G);
  (INTER_UTILIZATION_2G_SENSOR, Band2G);
  (INTER_UTILIZATION_5G_SENSOR, Band5G);
  (INTER_UTILIZATION_6G_SENSOR, Band6G)
].

(** The two per-band sensors whose [supported_fn] is the constant
    [lambda *_: True]. *)
Definition always_supported (k : string) : bool :=
  String.eqb k TX_UTILIZATION_2G_SENSOR || String.eqb k INTER_UTILIZATION_2G_SENSOR.

(** The client sensors whose value function tests [mac in
    controller.api.clients] before subscripting. *)
Definition guards_absence (k : string) : bool :=
  String.eqb k RX_SENSOR || String.eqb k TX_SENSOR || String.eqb k UPTIME_SENSOR.

(** The same controller after the poller replaced one of its mappings. *)
Definition with_clients (c : OmadaController) (m : gmap string Client.t) : OmadaController :=
  {| api := {| clients := m;
               known_clients := known_clients (api c);
               devices := devices (api c) |};
     available := available c;
     option_track_clients := option_track_clients c;
     option_track_devices := option_track_devices c;
     option_client_bandwidth_sensors := option_client_bandwidth_sensors c;
     option_client_uptime_sensor := option_client_uptime_sensor c;
     option_device_bandwidth_sensors := option_device_bandwidth_sensors c;
     option_device_statistics_sensors := option_device_statistics_sensors c;
     option_device_clients_sensors := option_device_clients_sensors c;
     option_device_radio_utilization_sensors := option_device_radio_utilization_sensors c;
     is_client_allowed := is_client_allowed c |}.


(** The entity bound to descriptor [d] and [mac] that currently caches [v]. *)
Definition entity_of (d : OmadaSensorEntityDescription) (mac : string) (v : value)
  : OmadaSensorEntity :=
  {| _mac := mac; entity_description := d; _attr_native_value := v |}.

(** The same controller after the poller replaced [controller.api.devices]. *)
Definition with_devices (c : OmadaController) (m : gmap string Device.t) : OmadaController :=
  {| api := {| clients := clients (api c);
               known_clients := known_clients (api c);
               devices := m |};
     available := available c;
     option_track_clients := option_track_clients c;
     option_track_devices := option_track_devices c;
     option_client_bandwidth_sensors := option_client_bandwidth_sensors c;
     option_client_uptime_sensor := option_client_uptime_sensor c;
     option_device_bandwidth_sensors := option_device_bandwidth_sensors c;
     option_device_statistics_sensors := option_device_statistics_sensors c;
     option_device_clients_sensors := option_device_clients_sensors c;
     option_device_radio_utilization_sensors := option_device_radio_utilization_sensors c;
     is_client_allowed := is_client_allowed c |}.

(** ** Platform setup

    [async_setup_entry] and its closure [items_added] only call into the
    controller, the dispatcher and the config entry, none of which is part
    of this file; they are embedded as the sequence of those calls. A
    dictionary or table handed over is named by the attribute it is read
    from, since the callee receives the shared object itself. *)

Inductive MappingRef : Type :=
| ApiClients
| ApiKnownClients
| ApiDevices.

Inductive TableRef : Type :=
| ClientEntityDescriptions
| DeviceEntityDescriptions.

Inductive Signal : Type :=
| signal_update
| signal_options_update.

Inductive setup_call : Type :=
| RegisterPlatformEntities (items : MappingRef) (descriptions : TableRef)
| AsyncDispatcherConnect (signal : Signal)
| AsyncOnUnload (signal : Signal)
| RestoreCleanupPlatformEntities (domain : string) (current known : MappingRef)
    (descriptions : TableRef).

(** The closure [items_added], run on the controller's current options. *)
Definition items_added (controller : OmadaController) : list setup_call :=
  (if option_track_clients controller
   then [RegisterPlatformEntities ApiClients ClientEntityDescriptions]
   else [])
  ++
  (if option_track_devices controller
   then [RegisterPlatformEntities ApiDevices DeviceEntityDescriptions]
   else []).

Definition async_setup_entry (controller : OmadaController) : list setup_call :=
  flat_map (fun signal => [AsyncDispatcherConnect signal; AsyncOnUnload signal])
           [signal_update; signal_options_update]
  ++
  (if option_track_clients controller
   then [RestoreCleanupPlatformEntities DOMAIN ApiClients ApiKnownClients
           ClientEntityDescriptions]
   else [])
  ++
  items_added controller.

(** The table and the mappings a call hands over. *)
Definition call_table (call : setup_call) : option TableRef :=
  match call with
  | RegisterPlatformEntities _ t => Some t
  | RestoreCleanupPlatformEntities _ _ _ t => Some t
  | _ => None
  end.

Definition call_mappings (call : setup_call) : list MappingRef :=
  match call with
  | RegisterPlatformEntities m _ => [m]
  | RestoreCleanupPlatformEntities _ m k _ => [m; k]
  | _ => []
  end.

Definition is_client_call (call : setup_call) : bool :=
  match call_table call with
  | Some ClientEntityDescriptions => true
  | _ => false
  end.

Definition is_device_call (call : setup_call) : bool :=
  match call_table call with
  | Some DeviceEntityDescriptions => true
  | _ => false
  end.

(** ** Vocabulary of the properties *)

(** One successful refresh of an entity, on some controller state at some
    time. A refresh that raises leaves the entity as it was. *)
Definition refresh_step (self self' : OmadaSensorEntity) : Prop :=
  exists controller clock evs, async_update self controller clock = Ok (self', evs).

(** The per-band sensors whose [supported_fn] subscripts
    [controller.api.devices]. *)
Definition band_gated (k : string) : bool :=
  existsb (fun kb => String.eqb k (fst kb)) BAND_SENSORS && negb (always_supported k).

(** The option flag that switches each sensor group on. *)
Definition client_group_option (k : string) (c : OmadaController) : bool :=
  if String.eqb k UPTIME_SENSOR then option_client_uptime_sensor c
  else option_client_bandwidth_sensors c.

Definition device_group_option (k : string) (c : OmadaController) : bool :=
  if existsb (String.eqb k) [DOWNLOAD_SENSOR; UPLOAD_SENSOR; RX_SENSOR; TX_SENSOR]
  then option_device_bandwidth_sensors c
  else if existsb (String.eqb k) [CPU_USAGE_SENSOR; MEMORY_USAGE_SENSOR; UPTIME_SENSOR]
  then option_device_statistics_sensors c
  else if existsb (String.eqb k)
            [CLIENTS_SENSOR; CLIENTS_2G_SENSOR; CLIENTS_5G_SENSOR; CLIENTS_6G_SENSOR]
  then option_device_clients_sensors c
  else option_device_radio_utilization_sensors c.

Definition is_number (v : value) : bool :=
  match v with
  | VInt _ | VFloat _ => true
  | _ => false
  end.

Definition is_timestamp_or_none (v : value) : bool :=
  match v with
  | VDatetime _ | VNone => true
  | _ => false
  end.

(** The display name a descriptor gives; [name_fn] takes and ignores any
    arguments. *)
Definition display_name (d : OmadaSensorEntityDescription) : string :=
  name_fn d empty_controller "".

(** The access point of [sample_device], polled seven seconds later. *)
Definition sample_device_later : Device.t :=
  {| Device.download := 7000000; Device.upload := 3; Device.rx_rate := 1;
     Device.tx_rate := 1000000; Device.cpu := 12; Device.memory := 57;
     Device.uptime := 3607; Device.clients := 4;
     Device.clients_2ghz := 0; Device.clients_5ghz := 3; Device.clients_6ghz := 1;
     Device.tx_utilization_2ghz := 0; Device.tx_utilization_5ghz := 9;
     Device.tx_utilization_6ghz := 2;
     Device.rx_utilization_2ghz := 0; Device.rx_utilization_5ghz := 11;
     Device.rx_utilization_6ghz := 5;
     Device.interference_utilization_2ghz := 0;
     Device.interference_utilization_5ghz := 20;
     Device.interference_utilization_6ghz := 1;
     Device.radio_enabled_2ghz := false;
     Device.radio_enabled_5ghz := true;
     Device.radio_enabled_6ghz := true |}.

(** Seven seconds after [clock0]. *)
Definition clock7 : datetime :=
  {| dt_wall := 1700000007000000; dt_fold := false; dt_tzinfo := UTC |}.

(** The device [r] once it reports to have been up for [u] seconds. *)
Definition with_uptime (r : Device.t) (u : Z) : Device.t :=
  {| Device.download := Device.download r; Device.upload := Device.upload r;
     Device.rx_rate := Device.rx_rate r; Device.tx_rate := Device.tx_rate r;
     Device.cpu := Device.cpu r; Device.memory := Device.memory r;
     Device.uptime := u; Device.clients := Device.clients r;
     Device.clients_2ghz := Device.clients_2ghz r;
     Device.clients_5ghz := Device.clients_5ghz r;
     Device.clients_6ghz := Device.clients_6ghz r;
     Device.tx_utilization_2ghz := Device.tx_utilization_2ghz r;
     Device.tx_utilization_5ghz := Device.tx_utilization_5ghz r;
     Device.tx_utilization_6ghz := Device.tx_utilization_6ghz r;
     Device.rx_utilization_2ghz := Device.rx_utilization_2ghz r;
     Device.rx_utilization_5ghz := Device.rx_utilization_5ghz r;
     Device.rx_utilization_6ghz := Device.rx_utilization_6ghz r;
     Device.interference_utilization_2ghz := Device.interference_utilization_2ghz r;
     Device.interference_utilization_5ghz := Device.interference_utilization_5ghz r;
     Device.interference_utilization_6ghz := Device.interference_utilization_6ghz r;
     Device.radio_enabled_2ghz := Device.radio_enabled_2ghz r;
     Device.radio_enabled_5ghz := Device.radio_enabled_5ghz r;
     Device.radio_enabled_6ghz := Device.radio_enabled_6ghz r |}.

(** ** Basic facts about the effect monad and dictionary access *)

Lemma bind_ok {A B} (m : Eff A) (k : A -> Eff B) clock a :
  m clock = Ok a -> bind m k clock = k a clock.
Proof. intros H. unfold bind. now rewrite H. Qed.

Lemma bind_raise {A B} (m : Eff A) (k : A -> Eff B) clock e :
  m clock = Raise e -> bind m k clock = Raise e.
Proof. intros H. unfold bind. now rewrite H. Qed.

Lemma getitem_present {V} (d : gmap string V) k v clock :
  d !! k = Some v -> getitem d k clock = Ok v.
Proof. intros H. unfold getitem. now rewrite H. Qed.

Lemma getitem_absent {V} (d : gmap string V) k clock :
  d !! k = None -> getitem d k clock = Raise (KeyError k).
Proof. intros H. unfold getitem. now rewrite H. Qed.

Lemma contains_present {V} (d : gmap string V) k v :
  d !! k = Some v -> contains d k = true.
Proof. intros H. unfold contains. now rewrite H. Qed.

Lemma contains_absent {V} (d : gmap string V) k :
  d !! k = None -> contains d k = false.
Proof. intros H. unfold contains. now rewrite H. Qed.

(** Unfold the monad around a dictionary access whose outcome is known. *)
Ltac run_eff :=
  unfold bind, getitem, contains, ret, raise, dt_util_now;
  repeat match goal with
         | H : ?d !! ?k = _ |- context [?d !! ?k] => rewrite H
         end;
  try reflexivity.

Create HintDb value_fns.
#[local] Hint Unfold
  client_download_value_fn client_upload_value_fn client_rx_value_fn
  client_tx_value_fn client_uptime_value_fn
  device_download_value_fn device_upload_value_fn device_rx_value_fn
  device_tx_value_fn device_cpu_value_fn device_memory_value_fn
  device_uptime_value_fn device_clients_value_fn
  device_clients_2g_value_fn device_clients_5g_value_fn device_clients_6g_value_fn
  device_tx_utilization_2g_value_fn device_tx_utilization_5g_value_fn
  device_tx_utilization_6g_value_fn
  device_rx_utilization_2g_value_fn device_rx_utilization_5g_value_fn
  device_rx_utilization_6g_value_fn
  device_inter_utilization_2g_value_fn device_inter_utilization_5g_value_fn
  device_inter_utilization_6g_value_fn : value_fns.

Ltac unfold_value_fns := autounfold with value_fns.

Lemma same_tzinfo_refl a : same_tzinfo a a = true.
Proof. apply String.eqb_refl. Qed.

Lemma same_tzinfo_sym a b : same_tzinfo a b = same_tzinfo b a.
Proof. apply String.eqb_sym. Qed.

Lemma datetime_eq_refl d : datetime_eq d d = true.
Proof.
  unfold datetime_eq. rewrite same_tzinfo_refl. apply Z.eqb_refl.
Qed.

Lemma datetime_eq_sym d e : datetime_eq d e = datetime_eq e d.
Proof.
  unfold datetime_eq. rewrite (same_tzinfo_sym (dt_tzinfo e) (dt_tzinfo d)).
  destruct (same_tzinfo (dt_tzinfo d) (dt_tzinfo e)); [apply Z.eqb_sym|].
  cbv zeta.
  destruct (Z.eqb_spec (datetime_utcoffset d)
              (utcoffset (dt_tzinfo d) (dt_wall d) (negb (dt_fold d))));
    destruct (Z.eqb_spec (datetime_utcoffset e)
                (utcoffset (dt_tzinfo e) (dt_wall e) (negb (dt_fold e))));
    cbn [negb]; try reflexivity.
  rewrite (Z.eqb_sym (datetime_utcoffset e) (datetime_utcoffset d)).
  destruct (Z.eqb_spec (datetime_utcoffset d) (datetime_utcoffset e));
    [apply Z.eqb_sym|].
  apply eq_true_iff_eq. rewrite !Z.eqb_eq. lia.
Qed.

(** With one [tzinfo] on both sides, [==] compares wall-clock readings. *)
Lemma datetime_eq_same_tzinfo d e :
  same_tzinfo (dt_tzinfo d) (dt_tzinfo e) = true ->
  datetime_eq d e = Z.eqb (dt_wall d) (dt_wall e).
Proof. intros H. unfold datetime_eq. now rewrite H. Qed.

Lemma py_eq_refl v : py_eq v v = true.
Proof.
  destruct v as [|n|q|d]; simpl.
  - reflexivity.
  - apply Z.eqb_refl.
  - apply Qeq_bool_iff. reflexivity.
  - apply datetime_eq_refl.
Qed.

Lemma py_eq_sym v w : py_eq v w = py_eq w v.
Proof.
  destruct v, w; simpl; try reflexivity.
  - apply Z.eqb_sym.
  - apply eq_true_iff_eq. rewrite !Qeq_bool_iff. split; intros H; now symmetry.
  - apply eq_true_iff_eq. rewrite !Qeq_bool_iff. split; intros H; now symmetry.
  - apply eq_true_iff_eq. rewrite !Qeq_bool_iff. split; intros H; now symmetry.
  - apply datetime_eq_sym.
Qed.

Lemma py_ne_false_eq v w : py_ne v w = false <-> py_eq v w = true.
Proof. unfold py_ne. destruct (py_eq v w); simpl; split; congruence. Qed.

(** The keys of each table are pairwise distinct, so the key-descriptor
    lists denote the dictionaries of the source. *)
Lemma CLIENT_ENTITY_DESCRIPTIONS_keys_NoDup :
  NoDup (fst <$> CLIENT_ENTITY_DESCRIPTIONS).
Proof. apply (bool_decide_unpack _). vm_compute. exact I. Qed.

Lemma DEVICE_ENTITY_DESCRIPTIONS_keys_NoDup :
  NoDup (fst <$> DEVICE_ENTITY_DESCRIPTIONS).
Proof. apply (bool_decide_unpack _). vm_compute. exact I. Qed.

Lemma table_sizes :
  length CLIENT_ENTITY_DESCRIPTIONS = 5%nat /\ length DEVICE_ENTITY_DESCRIPTIONS = 20%nat.
Proof. split; reflexivity. Qed.

(** ** Value functions on present and absent MACs *)

Section ValueFunctions.
Variable controller : OmadaController.
Variable mac : string.
Variable clock : datetime.

Lemma known_client_absent :
  known_clients (api controller) !! mac = None ->
  client_download_value_fn controller mac clock = Raise (KeyError mac) /\
  client_upload_value_fn controller mac clock = Raise (KeyError mac).
Proof.
  intros H. unfold client_download_value_fn, client_upload_value_fn.
  split; run_eff.
Qed.

Lemma known_client_present r :
  known_clients (api controller) !! mac = Some r ->
  client_download_value_fn controller mac clock
    = Ok (VFloat (KnownClient.download r # 1000000)) /\
  client_upload_value_fn controller mac clock
    = Ok (VFloat (KnownClient.upload r # 1000000)).
Proof.
  intros H. unfold client_download_value_fn, client_upload_value_fn.
  split; run_eff.
Qed.

Lemma client_absent :
  clients (api controller) !! mac = None ->
  client_rx_value_fn controller mac clock = Ok (VInt 0) /\
  client_tx_value_fn controller mac clock = Ok (VInt 0) /\
  client_uptime_value_fn controller mac clock = Ok VNone.
Proof.
  intros H.
  unfold client_rx_value_fn, client_tx_value_fn, client_uptime_value_fn.
  rewrite (contains_absent _ _ H). repeat split.
Qed.

Lemma client_present r :
  clients (api controller) !! mac = Some r ->
  client_rx_value_fn controller mac clock
    = Ok (VFloat (Client.rx_rate r # 1000000)) /\
  client_tx_value_fn controller mac clock
    = Ok (VFloat (Client.tx_rate r # 1000000)) /\
  client_uptime_value_fn controller mac clock
    = Ok (VDatetime (datetime_sub clock (timedelta_seconds (Client.uptime r)))).
Proof.
  intros H.
  unfold client_rx_value_fn, client_tx_value_fn, client_uptime_value_fn.
  rewrite (contains_present _ _ _ H). repeat split; run_eff.
Qed.

Lemma device_absent :
  devices (api controller) !! mac = None ->
  Forall (fun kd => value_fn (snd kd) controller mac clock = Raise (KeyError mac))
         DEVICE_ENTITY_DESCRIPTIONS.
Proof.
  intros H. unfold DEVICE_ENTITY_DESCRIPTIONS.
  repeat constructor; cbn [snd value_fn]; unfold_value_fns; run_eff.
Qed.

End ValueFunctions.

(** Every device value function returns a value for a MAC that is in
    [controller.api.devices]. *)
Lemma device_present controller mac clock r :
  devices (api controller) !! mac = Some r ->
  Forall (fun kd => is_ok (value_fn (snd kd) controller mac clock) = true)
         DEVICE_ENTITY_DESCRIPTIONS.
Proof.
  intros H. unfold DEVICE_ENTITY_DESCRIPTIONS.
  repeat constructor; cbn [snd value_fn]; unfold_value_fns; run_eff.
Qed.

(** ** The supported predicate of the per-band sensors *)

(** Ten of the twelve per-band sensors are supported exactly when the
    band's radio is enabled on the device record; the 2.4GHz TX
    utilization and 2.4GHz interference sensors are always supported. *)
Lemma band_sensors_supported controller mac clock r :
  devices (api controller) !! mac = Some r ->
  Forall (fun kb =>
            run_supported_fn DEVICE_ENTITY_DESCRIPTIONS (fst kb) controller mac clock
            = Some (Ok (if always_supported (fst kb) then true
                        else radio_enabled (snd kb) r)))
         BAND_SENSORS.
Proof.
  intros H. unfold BAND_SENSORS.
  repeat constructor; cbn; run_eff.
Qed.

(** C1 (the code departs from the claim): on an access point whose 2.4GHz
    radio is disabled, the supported predicates of the 2.4GHz TX
    utilization and 2.4GHz interference sensors still answer true, while
    those of the 2.4GHz RX utilization and 2.4GHz client count sensors
    answer false as the radio flag says. *)
Theorem C1_supported_2g_tx_inter_ignore_radio :
  devices (api sample_controller) !! "AP" = Some sample_device /\
  Device.radio_enabled_2ghz sample_device = false /\
  run_supported_fn DEVICE_ENTITY_DESCRIPTIONS TX_UTILIZATION_2G_SENSOR
    sample_controller "AP" clock0 = Some (Ok true) /\
  run_supported_fn DEVICE_ENTITY_DESCRIPTIONS INTER_UTILIZATION_2G_SENSOR
    sample_controller "AP" clock0 = Some (Ok true) /\
  run_supported_fn DEVICE_ENTITY_DESCRIPTIONS RX_UTILIZATION_2G_SENSOR
    sample_controller "AP" clock0 = Some (Ok false) /\
  run_supported_fn DEVICE_ENTITY_DESCRIPTIONS CLIENTS_2G_SENSOR
    sample_controller "AP" clock0 = Some (Ok false).
Proof. repeat split; vm_compute; reflexivity. Qed.

(** ** Totality of the value functions *)

(** C2 (as stated, refuted): the value function bound to the client
    "downloaded" sensor does not guard absence, and on a MAC that is in no
    mapping it raises a key-lookup error instead of returning zero or
    null. *)
Lemma C2_client_download_absent_mac_raises :
  known_clients (api empty_controller) !! "AA-BB-CC-DD-EE-FF" = None /\
  run_value_fn CLIENT_ENTITY_DESCRIPTIONS DOWNLOAD_SENSOR
    empty_controller "AA-BB-CC-DD-EE-FF" clock0
  = Some (Raise (KeyError "AA-BB-CC-DD-EE-FF")) /\
  ~ (forall kd, In kd (CLIENT_ENTITY_DESCRIPTIONS ++ DEVICE_ENTITY_DESCRIPTIONS) ->
     forall c mac clock, is_ok (value_fn (snd kd) c mac clock) = true).
Proof.
  split; [reflexivity|]. split; [vm_compute; reflexivity|].
  intros H.
  unfold CLIENT_ENTITY_DESCRIPTIONS in H.
  pose proof (H _ (or_introl eq_refl) empty_controller "AA-BB-CC-DD-EE-FF" clock0) as K.
  discriminate K.
Qed.

(** C2 (amended): only the client "rx", "tx" and "uptime" value functions
    guard absence; they return a value for every MAC, and for a MAC absent
    from [controller.api.clients] zero ("rx", "tx") or null ("uptime").
    Every other value function
    returns a value exactly when the MAC is present in the mapping it
    subscripts ([known_clients] for the client "downloaded" and "uploaded"
    sensors, [devices] for every device sensor) and raises [KeyError(mac)]
    otherwise. *)
Theorem C2_value_fn_defined_exactly_when_present :
  Forall (fun kd => forall c mac clock,
            if guards_absence (fst kd) then
              exists v, value_fn (snd kd) c mac clock = Ok v /\
                        (clients (api c) !! mac = None ->
                         v = if String.eqb (fst kd) UPTIME_SENSOR then VNone
                             else VInt 0)
            else
              if contains (known_clients (api c)) mac
              then is_ok (value_fn (snd kd) c mac clock) = true
              else value_fn (snd kd) c mac clock = Raise (KeyError mac))
         CLIENT_ENTITY_DESCRIPTIONS /\
  Forall (fun kd => forall c mac clock,
            if contains (devices (api c)) mac
            then is_ok (value_fn (snd kd) c mac clock) = true
            else value_fn (snd kd) c mac clock = Raise (KeyError mac))
         DEVICE_ENTITY_DESCRIPTIONS.
Proof.
  split.
  - unfold CLIENT_ENTITY_DESCRIPTIONS.
    repeat constructor; intros c mac clock; cbn [fst snd value_fn];
      change (guards_absence _) with true || change (guards_absence _) with false;
      cbv iota.
    + destruct (known_clients (api c) !! mac) as [r|] eqn:E.
      * rewrite (contains_present _ _ _ E).
        now rewrite (proj1 (known_client_present c mac clock r E)).
      * rewrite (contains_absent _ _ E). apply (known_client_absent c mac clock E).
    + destruct (known_clients (api c) !! mac) as [r|] eqn:E.
      * rewrite (contains_present _ _ _ E).
        now rewrite (proj2 (known_client_present c mac clock r E)).
      * rewrite (contains_absent _ _ E). apply (known_client_absent c mac clock E).
    + destruct (clients (api c) !! mac) as [r|] eqn:E.
      * destruct (client_present c mac clock r E) as (-> & _ & _).
        eexists; split; [reflexivity | discriminate].
      * destruct (client_absent c mac clock E) as (-> & _ & _).
        eexists; split; [reflexivity | reflexivity].
    + destruct (clients (api c) !! mac) as [r|] eqn:E.
      * destruct (client_present c mac clock r E) as (_ & -> & _).
        eexists; split; [reflexivity | discriminate].
      * destruct (client_absent c mac clock E) as (_ & -> & _).
        eexists; split; [reflexivity | reflexivity].
    + destruct (clients (api c) !! mac) as [r|] eqn:E.
      * destruct (client_present c mac clock r E) as (_ & _ & ->).
        eexists; split; [reflexivity | discriminate].
      * destruct (client_absent c mac clock E) as (_ & _ & ->).
        eexists; split; [reflexivity | reflexivity].
  - apply Forall_forall. intros kd Hkd c mac clock.
    destruct (devices (api c) !! mac) as [r|] eqn:E.
    + rewrite (contains_present _ _ _ E).
      pose proof (device_present c mac clock r E) as P.
      rewrite Forall_forall in P. now apply P.
    + rewrite (contains_absent _ _ E).
      pose proof (device_absent c mac clock E) as P.
      rewrite Forall_forall in P. now apply P.
Qed.

(** ** Client rate and uptime accessors *)

(** C3: for a MAC absent from [controller.api.clients] the rx and tx value
    functions return 0 and the uptime value function returns None; for a
    MAC present there they return the stored [rx_rate / 1000000],
    [tx_rate / 1000000] and the current time minus [uptime] seconds, that
    is [now - timedelta(seconds=uptime)], taken on the wall clock of now
    in its time zone. *)
Theorem C3_client_rx_tx_uptime controller mac clock :
  match clients (api controller) !! mac with
  | None =>
      client_rx_value_fn controller mac clock = Ok (VInt 0) /\
      client_tx_value_fn controller mac clock = Ok (VInt 0) /\
      client_uptime_value_fn controller mac clock = Ok VNone
  | Some r =>
      client_rx_value_fn controller mac clock
        = Ok (VFloat (Client.rx_rate r # 1000000)) /\
      client_tx_value_fn controller mac clock
        = Ok (VFloat (Client.tx_rate r # 1000000)) /\
      client_uptime_value_fn controller mac clock
        = Ok (VDatetime (datetime_sub clock (timedelta_seconds (Client.uptime r))))
  end.
Proof.
  destruct (clients (api controller) !! mac) as [r|] eqn:E.
  - apply (client_present controller mac clock r E).
  - apply (client_absent controller mac clock E).
Qed.

(** ** The entity wrapper *)

Lemma async_update_ok self controller clock v :
  value_fn (entity_description self) controller (_mac self) clock = Ok v ->
  async_update self controller clock
  = Ok (if py_ne v (native_value self)
        then (set_attr_native_value self v, [SuperAsyncUpdate])
        else (self, [])).
Proof.
  intros H. unfold async_update. rewrite (bind_ok _ _ _ _ H).
  now destruct (py_ne v (native_value self)).
Qed.

Lemma async_update_raise self controller clock e :
  value_fn (entity_description self) controller (_mac self) clock = Raise e ->
  async_update self controller clock = Raise e.
Proof. intros H. unfold async_update. now rewrite (bind_raise _ _ _ _ H). Qed.

Lemma init_ok mac controller d clock v :
  value_fn d controller mac clock = Ok v ->
  init mac controller d clock = Ok (entity_of d mac v).
Proof. intros H. unfold init. now rewrite (bind_ok _ _ _ _ H). Qed.

(** C4: [async_update] reads the value through the descriptor's value
    function; it stores the value and propagates an update if and only if
    the value read differs (Python [!=]) from the cached native value;
    otherwise the entity is left as it was and nothing is propagated. *)
Theorem C4_async_update_republishes_iff_changed self controller clock v :
  value_fn (entity_description self) controller (_mac self) clock = Ok v ->
  exists self' evs,
    async_update self controller clock = Ok (self', evs) /\
    (evs = [SuperAsyncUpdate] <-> py_ne v (native_value self) = true) /\
    (py_ne v (native_value self) = true ->
       native_value self' = v /\
       _mac self' = _mac self /\
       entity_description self' = entity_description self) /\
    (py_ne v (native_value self) = false -> self' = self /\ evs = []).
Proof.
  intros H. rewrite (async_update_ok _ _ _ _ H).
  destruct (py_ne v (native_value self)); do 2 eexists;
    (split; [reflexivity|]); repeat split; intros; try discriminate; auto.
Qed.

(** The client "rx" entity of "C1", built while the client was away
    (cached 0), is refreshed once the client is connected at 2.5 MB/s. *)
Lemma C4_async_update_witness :
  exists d, table_get CLIENT_ENTITY_DESCRIPTIONS RX_SENSOR = Some d /\
    value_fn d sample_controller "C1" clock0 = Ok (VFloat (2500000 # 1000000)) /\
    exists self' evs,
      async_update (entity_of d "C1" (VInt 0)) sample_controller clock0 = Ok (self', evs) /\
      (evs = [SuperAsyncUpdate] <-> py_ne (VFloat (2500000 # 1000000)) (VInt 0) = true) /\
      (py_ne (VFloat (2500000 # 1000000)) (VInt 0) = true ->
         native_value self' = VFloat (2500000 # 1000000) /\
         _mac self' = "C1" /\
         entity_description self' = d) /\
      (py_ne (VFloat (2500000 # 1000000)) (VInt 0) = false ->
         self' = entity_of d "C1" (VInt 0) /\ evs = []).
Proof.
  eexists. split; [reflexivity|]. split; [vm_compute; reflexivity|].
  apply (C4_async_update_republishes_iff_changed
           (entity_of _ "C1" (VInt 0)) sample_controller clock0).
  vm_compute. reflexivity.
Defined.

(** C8: right after construction the cached native value is the result of
    the descriptor's value function on the controller and the entity's
    MAC; after an [async_update] the cached native value equals (Python
    [==]) the value that update read, and is that very value whenever the
    update was propagated. *)
Theorem C8_cached_value_is_last_read :
  (forall mac controller d clock v,
      value_fn d controller mac clock = Ok v ->
      exists e, init mac controller d clock = Ok e /\
                native_value e = v /\ _mac e = mac /\ entity_description e = d) /\
  (forall self controller clock v,
      value_fn (entity_description self) controller (_mac self) clock = Ok v ->
      exists self' evs,
        async_update self controller clock = Ok (self', evs) /\
        py_eq (native_value self') v = true /\
        (evs <> [] -> native_value self' = v)).
Proof.
  split.
  - intros mac controller d clock v H.
    exists (entity_of d mac v). rewrite (init_ok _ _ _ _ _ H). auto.
  - intros self controller clock v H.
    rewrite (async_update_ok _ _ _ _ H).
    destruct (py_ne v (native_value self)) eqn:E; do 2 eexists;
      (split; [reflexivity|]); split.
    + apply py_eq_refl.
    + reflexivity.
    + apply py_ne_false_eq in E. rewrite py_eq_sym. exact E.
    + intros K. now contradiction K.
Qed.

(** The client "rx" entity of "C1" is built while the client is away and
    caches the integer 0; a refresh that reads the float 0.0 leaves the
    cache alone, and the two are equal. *)
Lemma C8_cached_value_witness :
  exists d, table_get CLIENT_ENTITY_DESCRIPTIONS RX_SENSOR = Some d /\
    (exists e, init "C1" empty_controller d clock0 = Ok e /\
               native_value e = VInt 0 /\ _mac e = "C1" /\ entity_description e = d) /\
    (exists self' evs,
        async_update (entity_of d "C1" (VInt 0))
          (with_clients empty_controller
             {[ "C1" := {| Client.rx_rate := 0; Client.tx_rate := 0; Client.uptime := 1 |} ]})
          clock0 = Ok (self', evs) /\
        py_eq (native_value self') (VFloat (0 # 1000000)) = true /\
        (evs <> [] -> native_value self' = VFloat (0 # 1000000))).
Proof.
  eexists. split; [reflexivity|]. split.
  - apply (proj1 C8_cached_value_is_last_read). vm_compute. reflexivity.
  - apply (proj2 C8_cached_value_is_last_read (entity_of _ "C1" (VInt 0))).
    vm_compute. reflexivity.
Defined.

(** ** Unit conversion *)

(** C5 (as stated, refuted): a transformation other than the division by
    1000000 is applied to a counter. The uptime counter of the access
    point "AP", 3600 seconds, is published as the datetime an hour before
    the clock reading, neither as stored nor divided by 1000000. *)
Lemma C5_uptime_counter_is_transformed :
  devices (api sample_controller) !! "AP" = Some sample_device /\
  Device.uptime sample_device = 3600 /\
  device_uptime_value_fn sample_controller "AP" clock0
  = Ok (VDatetime {| dt_wall := 1699996400000000; dt_fold := false; dt_tzinfo := UTC |}) /\
  device_uptime_value_fn sample_controller "AP" clock0 <> Ok (VInt 3600) /\
  device_uptime_value_fn sample_controller "AP" clock0 <> Ok (VFloat (3600 # 1000000)).
Proof.
  split; [reflexivity|]. split; [reflexivity|]. split; [reflexivity|].
  split; intros H; vm_compute in H; discriminate H.
Qed.

(** C5 (amended): for a MAC present in the mapping a value function reads,
    the download and upload value functions (client and device) return
    the stored byte counter divided by 1000000 and the rx and tx value
    functions return the stored rate divided by 1000000; the two uptime
    value functions return the current time minus the stored uptime in
    seconds; every other counter of a device is returned as stored. *)
Theorem C5_counters_scaled_shifted_or_stored controller mac clock :
  (forall r, known_clients (api controller) !! mac = Some r ->
     client_download_value_fn controller mac clock
       = Ok (VFloat (KnownClient.download r # 1000000)) /\
     client_upload_value_fn controller mac clock
       = Ok (VFloat (KnownClient.upload r # 1000000))) /\
  (forall r, clients (api controller) !! mac = Some r ->
     client_rx_value_fn controller mac clock
       = Ok (VFloat (Client.rx_rate r # 1000000)) /\
     client_tx_value_fn controller mac clock
       = Ok (VFloat (Client.tx_rate r # 1000000)) /\
     client_uptime_value_fn controller mac clock
       = Ok (VDatetime (datetime_sub clock (timedelta_seconds (Client.uptime r))))) /\
  (forall r, devices (api controller) !! mac = Some r ->
     device_download_value_fn controller mac clock
       = Ok (VFloat (Device.download r # 1000000)) /\
     device_upload_value_fn controller mac clock
       = Ok (VFloat (Device.upload r # 1000000)) /\
     device_rx_value_fn controller mac clock
       = Ok (VFloat (Device.rx_rate r # 1000000)) /\
     device_tx_value_fn controller mac clock
       = Ok (VFloat (Device.tx_rate r # 1000000)) /\
     device_cpu_value_fn controller mac clock = Ok (VInt (Device.cpu r)) /\
     device_memory_value_fn controller mac clock = Ok (VInt (Device.memory r)) /\
     device_uptime_value_fn controller mac clock
       = Ok (VDatetime (datetime_sub clock (timedelta_seconds (Device.uptime r)))) /\
     device_clients_value_fn controller mac clock = Ok (VInt (Device.clients r)) /\
     device_clients_2g_value_fn controller mac clock
       = Ok (VInt (Device.clients_2ghz r)) /\
     device_clients_5g_value_fn controller mac clock
       = Ok (VInt (Device.clients_5ghz r)) /\
     device_clients_6g_value_fn controller mac clock
       = Ok (VInt (Device.clients_6ghz r)) /\
     device_tx_utilization_2g_value_fn controller mac clock
       = Ok (VInt (Device.tx_utilization_2ghz r)) /\
     device_tx_utilization_5g_value_fn controller mac clock
       = Ok (VInt (Device.tx_utilization_5ghz r)) /\
     device_tx_utilization_6g_value_fn controller mac clock
       = Ok (VInt (Device.tx_utilization_6ghz r)) /\
     device_rx_utilization_2g_value_fn controller mac clock
       = Ok (VInt (Device.rx_utilization_2ghz r)) /\
     device_rx_utilization_5g_value_fn controller mac clock
       = Ok (VInt (Device.rx_utilization_5ghz r)) /\
     device_rx_utilization_6g_value_fn controller mac clock
       = Ok (VInt (Device.rx_utilization_6ghz r)) /\
     device_inter_utilization_2g_value_fn controller mac clock
       = Ok (VInt (Device.interference_utilization_2ghz r)) /\
     device_inter_utilization_5g_value_fn controller mac clock
       = Ok (VInt (Device.interference_utilization_5ghz r)) /\
     device_inter_utilization_6g_value_fn controller mac clock
       = Ok (VInt (Device.interference_utilization_6ghz r))).
Proof.
  split; [|split].
  - intros r H. apply (known_client_present controller mac clock r H).
  - intros r H. apply (client_present controller mac clock r H).
  - intros r H. unfold_value_fns. repeat split; run_eff.
Qed.

(** ** Uptime *)

Lemma datetime_sub_instant clock u :
  datetime_utcoffset (datetime_sub clock (timedelta_seconds u))
  = datetime_utcoffset clock ->
  utc_micros (datetime_sub clock (timedelta_seconds u))
  = utc_micros clock - u * 1000000.
Proof.
  unfold utc_micros. intros ->.
  cbn [datetime_sub timedelta_seconds dt_wall td_micros]. lia.
Qed.

(** Across the end of daylight saving time the subtraction on the wall
    clock lands an hour away from the instant [uptime] seconds before
    now: twelve hours before noon is midnight on the wall clock, which
    was thirteen hours earlier. *)
Example datetime_sub_across_dst :
  utc_micros amsterdam_noon = 1698577200000000 /\
  utc_micros (datetime_sub amsterdam_noon (timedelta_seconds 43200))
  = 1698530400000000 /\
  utc_micros amsterdam_noon - 43200 * 1000000 = 1698534000000000.
Proof. repeat split. Qed.

(** C6: for a MAC present in [controller.api.devices] the device uptime
    value function returns the current time minus the record's [uptime]
    taken as seconds; likewise the client uptime value function for a MAC
    present in [controller.api.clients]. The subtraction is the one of
    [now - timedelta(seconds=uptime)]: the wall-clock reading of now is
    moved back by [uptime] seconds and the time zone of now is kept, so
    the result is the instant [uptime] seconds before now whenever the
    zone's offset from UTC is the same at both readings. *)
Theorem C6_uptime_is_now_minus_seconds controller mac clock :
  (forall r, devices (api controller) !! mac = Some r ->
     device_uptime_value_fn controller mac clock
       = Ok (VDatetime (datetime_sub clock (timedelta_seconds (Device.uptime r)))) /\
     dt_wall (datetime_sub clock (timedelta_seconds (Device.uptime r)))
       = dt_wall clock - Device.uptime r * 1000000 /\
     dt_tzinfo (datetime_sub clock (timedelta_seconds (Device.uptime r)))
       = dt_tzinfo clock /\
     (datetime_utcoffset (datetime_sub clock (timedelta_seconds (Device.uptime r)))
      = datetime_utcoffset clock ->
      utc_micros (datetime_sub clock (timedelta_seconds (Device.uptime r)))
      = utc_micros clock - Device.uptime r * 1000000)) /\
  (forall r, clients (api controller) !! mac = Some r ->
     client_uptime_value_fn controller mac clock
       = Ok (VDatetime (datetime_sub clock (timedelta_seconds (Client.uptime r)))) /\
     dt_wall (datetime_sub clock (timedelta_seconds (Client.uptime r)))
       = dt_wall clock - Client.uptime r * 1000000 /\
     dt_tzinfo (datetime_sub clock (timedelta_seconds (Client.uptime r)))
       = dt_tzinfo clock /\
     (datetime_utcoffset (datetime_sub clock (timedelta_seconds (Client.uptime r)))
      = datetime_utcoffset clock ->
      utc_micros (datetime_sub clock (timedelta_seconds (Client.uptime r)))
      = utc_micros clock - Client.uptime r * 1000000)).
Proof.
  split; intros r H.
  - split; [|split; [reflexivity|split; [reflexivity|apply datetime_sub_instant]]].
    unfold device_uptime_value_fn. run_eff.
  - split; [|split; [reflexivity|split; [reflexivity|apply datetime_sub_instant]]].
    apply (proj2 (proj2 (client_present controller mac clock r H))).
Qed.

(** ** Predicates of the descriptors *)

(** C7: the available predicate of every descriptor of both tables
    returns [controller.available], whatever the MAC. *)
Theorem C7_available_is_controller_available :
  Forall (fun kd => forall controller mac,
            available_fn (snd kd) controller mac = available controller)
         (CLIENT_ENTITY_DESCRIPTIONS ++ DEVICE_ENTITY_DESCRIPTIONS) /\
  Forall (fun kd => forall controller mac1 mac2,
            available_fn (snd kd) controller mac1
            = available_fn (snd kd) controller mac2)
         (CLIENT_ENTITY_DESCRIPTIONS ++ DEVICE_ENTITY_DESCRIPTIONS).
Proof.
  split; unfold CLIENT_ENTITY_DESCRIPTIONS, DEVICE_ENTITY_DESCRIPTIONS;
    cbn [app]; repeat constructor.
Qed.


(** C10: in both tables every dictionary key is the [key] field of its
    descriptor, the entity category is diagnostic and [has_entity_name] is
    true; a client descriptor is allowed only with [option_track_clients]
    and [is_client_allowed(mac)]; a device descriptor is allowed only with
    [option_track_devices], and its answer does not depend on the MAC. *)
Theorem C10_table_invariants :
  Forall (fun kd => fst kd = key (snd kd) /\
                    entity_category (snd kd) = EntityCategory_DIAGNOSTIC /\
                    has_entity_name (snd kd) = true)
         (CLIENT_ENTITY_DESCRIPTIONS ++ DEVICE_ENTITY_DESCRIPTIONS) /\
  Forall (fun kd => forall controller mac,
            allowed_fn (snd kd) controller mac = true ->
            option_track_clients controller = true /\
            is_client_allowed controller mac = true)
         CLIENT_ENTITY_DESCRIPTIONS /\
  Forall (fun kd => forall controller mac,
            (allowed_fn (snd kd) controller mac = true ->
             option_track_devices controller = true) /\
            (forall mac', allowed_fn (snd kd) controller mac
                          = allowed_fn (snd kd) controller mac'))
         DEVICE_ENTITY_DESCRIPTIONS.
Proof.
  unfold CLIENT_ENTITY_DESCRIPTIONS, DEVICE_ENTITY_DESCRIPTIONS; cbn [app].
  split; [|split]; repeat constructor; cbn [snd allowed_fn] in *;
    intros; repeat match goal with
                   | H : _ && _ = true |- _ => apply andb_true_iff in H; destruct H
                   end; assumption.
Qed.

(** ** The theorems at work on the sample state *)

(** "C1" is both known and connected, "AP" is a polled access point. *)
Lemma C5_counters_witness :
  client_download_value_fn sample_controller "C1" clock0
    = Ok (VFloat (1500000 # 1000000)) /\
  client_rx_value_fn sample_controller "C1" clock0
    = Ok (VFloat (2500000 # 1000000)) /\
  device_download_value_fn sample_controller "AP" clock0
    = Ok (VFloat (7000000 # 1000000)) /\
  device_cpu_value_fn sample_controller "AP" clock0 = Ok (VInt 12) /\
  device_uptime_value_fn sample_controller "AP" clock0
    = Ok (VDatetime (datetime_sub clock0 (timedelta_seconds 3600))).
Proof.
  pose proof (C5_counters_scaled_shifted_or_stored sample_controller "C1" clock0)
    as (K & C & _).
  pose proof (C5_counters_scaled_shifted_or_stored sample_controller "AP" clock0)
    as (_ & _ & D).
  specialize (K sample_known eq_refl).
  specialize (C sample_client eq_refl).
  specialize (D sample_device eq_refl).
  split; [exact (proj1 K)|].
  split; [exact (proj1 C)|].
  split; [exact (proj1 D)|].
  split; [exact (proj1 (proj2 (proj2 (proj2 (proj2 D)))))|].
  exact (proj1 (proj2 (proj2 (proj2 (proj2 (proj2 (proj2 D))))))).
Defined.

(** The access point has been up for an hour, the client for 90 seconds. *)
Lemma C6_uptime_witness :
  device_uptime_value_fn sample_controller "AP" clock0
    = Ok (VDatetime {| dt_wall := 1699996400000000; dt_fold := false;
                       dt_tzinfo := UTC |}) /\
  client_uptime_value_fn sample_controller "C1" clock0
    = Ok (VDatetime {| dt_wall := 1699999910000000; dt_fold := false;
                       dt_tzinfo := UTC |}).
Proof.
  split.
  - apply (proj1 (proj1 (C6_uptime_is_now_minus_seconds sample_controller "AP" clock0)
                    sample_device eq_refl)).
  - apply (proj1 (proj2 (C6_uptime_is_now_minus_seconds sample_controller "C1" clock0)
                    sample_client eq_refl)).
Defined.


(** * Further properties of the module *)

(** ** What a sensor reads *)

Lemma getitem_lookup_eq {V} (d1 d2 : gmap string V) k :
  d1 !! k = d2 !! k -> getitem d1 k = getitem d2 k.
Proof. intros H. unfold getitem. now rewrite H. Qed.

Lemma contains_lookup_eq {V} (d1 d2 : gmap string V) k :
  d1 !! k = d2 !! k -> contains d1 k = contains d2 k.
Proof. intros H. unfold contains. now rewrite H. Qed.

(** X1: what a device sensor publishes for a MAC, and whether it is
    supported, depends on the controller only through the record stored
    under that MAC in [controller.api.devices]: two controller states
    that agree on [devices[mac]] (present or absent) give the same
    outcome, whatever their options, clients and other devices. *)
Theorem device_sensors_read_only_their_record c1 c2 mac clock :
  devices (api c1) !! mac = devices (api c2) !! mac ->
  Forall (fun kd =>
            value_fn (snd kd) c1 mac clock = value_fn (snd kd) c2 mac clock /\
            supported_fn (snd kd) c1 mac clock = supported_fn (snd kd) c2 mac clock)
         DEVICE_ENTITY_DESCRIPTIONS.
Proof.
  intros H. unfold DEVICE_ENTITY_DESCRIPTIONS.
  repeat constructor; cbn [snd value_fn supported_fn]; unfold_value_fns;
    rewrite ?(getitem_lookup_eq _ _ _ H); reflexivity.
Qed.

(** A second access point appears and the options change; the sensors of
    "AP" are not affected. *)
Lemma device_sensors_read_only_their_record_witness :
  Forall (fun kd =>
            value_fn (snd kd) sample_controller "AP" clock0
            = value_fn (snd kd)
                (with_devices empty_controller
                   (<[ "AP2" := sample_device ]> {[ "AP" := sample_device ]}))
                "AP" clock0 /\
            supported_fn (snd kd) sample_controller "AP" clock0
            = supported_fn (snd kd)
                (with_devices empty_controller
                   (<[ "AP2" := sample_device ]> {[ "AP" := sample_device ]}))
                "AP" clock0)
         DEVICE_ENTITY_DESCRIPTIONS.
Proof.
  apply (device_sensors_read_only_their_record sample_controller
           (with_devices empty_controller
              (<[ "AP2" := sample_device ]> {[ "AP" := sample_device ]}))
           "AP" clock0).
  vm_compute. reflexivity.
Defined.

(** X2: what a client sensor publishes for a MAC depends on the controller
    only through the records stored under that MAC in
    [controller.api.clients] and [controller.api.known_clients]; its
    supported predicate is true on every state. *)
Theorem client_sensors_read_only_their_records c1 c2 mac clock :
  clients (api c1) !! mac = clients (api c2) !! mac ->
  known_clients (api c1) !! mac = known_clients (api c2) !! mac ->
  Forall (fun kd =>
            value_fn (snd kd) c1 mac clock = value_fn (snd kd) c2 mac clock /\
            supported_fn (snd kd) c1 mac clock = Ok true)
         CLIENT_ENTITY_DESCRIPTIONS.
Proof.
  intros Hc Hk. unfold CLIENT_ENTITY_DESCRIPTIONS.
  repeat constructor; cbn [snd value_fn supported_fn]; unfold_value_fns;
    rewrite ?(getitem_lookup_eq _ _ _ Hk), ?(contains_lookup_eq _ _ _ Hc),
            ?(getitem_lookup_eq _ _ _ Hc); reflexivity.
Qed.

(** Another client connects and the devices are polled; the sensors of
    "C1" are not affected. *)
Lemma client_sensors_read_only_their_records_witness :
  Forall (fun kd =>
            value_fn (snd kd) sample_controller "C1" clock0
            = value_fn (snd kd)
                (with_clients (with_devices sample_controller ∅)
                   (<[ "C9" := sample_client ]> {[ "C1" := sample_client ]}))
                "C1" clock0 /\
            supported_fn (snd kd) sample_controller "C1" clock0 = Ok true)
         CLIENT_ENTITY_DESCRIPTIONS.
Proof.
  apply (client_sensors_read_only_their_records sample_controller
           (with_clients (with_devices sample_controller ∅)
              (<[ "C9" := sample_client ]> {[ "C1" := sample_client ]}))
           "C1" clock0); vm_compute; reflexivity.
Defined.

(** X3: polling other devices does not disturb a device's sensors, and
    losing the device breaks all of them: storing or deleting a record
    under another MAC leaves every device value function's outcome for
    [mac] as it was; after [mac] itself is deleted from
    [controller.api.devices] every device value function raises
    [KeyError(mac)], and after a record is stored under [mac] every one
    returns a value. *)
Theorem device_sensors_under_polling c m mac mac' r clock :
  mac <> mac' ->
  Forall (fun kd =>
            value_fn (snd kd) (with_devices c (<[ mac' := r ]> m)) mac clock
            = value_fn (snd kd) (with_devices c m) mac clock /\
            value_fn (snd kd) (with_devices c (delete mac' m)) mac clock
            = value_fn (snd kd) (with_devices c m) mac clock /\
            value_fn (snd kd) (with_devices c (delete mac m)) mac clock
            = Raise (KeyError mac) /\
            is_ok (value_fn (snd kd) (with_devices c (<[ mac := r ]> m)) mac clock)
            = true)
         DEVICE_ENTITY_DESCRIPTIONS.
Proof.
  intros Hne.
  assert (Hi : devices (api (with_devices c (<[ mac' := r ]> m))) !! mac
               = devices (api (with_devices c m)) !! mac).
  { cbn. apply lookup_insert_ne. congruence. }
  assert (Hd : devices (api (with_devices c (delete mac' m))) !! mac
               = devices (api (with_devices c m)) !! mac).
  { cbn. apply lookup_delete_ne. congruence. }
  assert (Hgone : devices (api (with_devices c (delete mac m))) !! mac = None).
  { cbn. apply lookup_delete_eq. }
  assert (Hnew : devices (api (with_devices c (<[ mac := r ]> m))) !! mac = Some r).
  { cbn. apply lookup_insert_eq. }
  pose proof (device_absent _ _ clock Hgone) as A.
  pose proof (device_present _ _ clock _ Hnew) as P.
  rewrite Forall_forall in A, P.
  apply Forall_forall. intros kd Hkd.
  split; [|split; [|split]].
  - revert kd Hkd. apply Forall_forall.
    unfold DEVICE_ENTITY_DESCRIPTIONS.
    repeat constructor; cbn [snd value_fn]; unfold_value_fns;
      rewrite ?(getitem_lookup_eq _ _ _ Hi); reflexivity.
  - revert kd Hkd. apply Forall_forall.
    unfold DEVICE_ENTITY_DESCRIPTIONS.
    repeat constructor; cbn [snd value_fn]; unfold_value_fns;
      rewrite ?(getitem_lookup_eq _ _ _ Hd); reflexivity.
  - now apply A.
  - now apply P.
Qed.

(** The poller stores, then drops, a second access point next to "AP". *)
Lemma device_sensors_under_polling_witness :
  Forall (fun kd =>
            value_fn (snd kd)
              (with_devices sample_controller
                 (<[ "AP2" := sample_device ]> {[ "AP" := sample_device ]})) "AP" clock0
            = value_fn (snd kd)
                (with_devices sample_controller {[ "AP" := sample_device ]}) "AP" clock0 /\
            value_fn (snd kd)
              (with_devices sample_controller (delete "AP2" {[ "AP" := sample_device ]}))
              "AP" clock0
            = value_fn (snd kd)
                (with_devices sample_controller {[ "AP" := sample_device ]}) "AP" clock0 /\
            value_fn (snd kd)
              (with_devices sample_controller (delete "AP" {[ "AP" := sample_device ]}))
              "AP" clock0
            = Raise (KeyError "AP") /\
            is_ok (value_fn (snd kd)
                     (with_devices sample_controller
                        (<[ "AP" := sample_device ]> {[ "AP" := sample_device ]}))
                     "AP" clock0)
            = true)
         DEVICE_ENTITY_DESCRIPTIONS.
Proof.
  apply (device_sensors_under_polling sample_controller {[ "AP" := sample_device ]}
           "AP" "AP2" sample_device clock0).
  discriminate.
Defined.

(** ** Time, kinds of value and support *)

(** Walk a table entry by entry. *)
Ltac each_entry := repeat match goal with |- Forall _ _ => constructor end.

(** X4: only the uptime sensors look at the clock. Every supported
    predicate, and every value function except those bound to the "uptime"
    key, has the same outcome at any two times. *)
Theorem only_uptime_reads_the_clock :
  Forall (fun kd => forall c mac clock1 clock2,
            supported_fn (snd kd) c mac clock1 = supported_fn (snd kd) c mac clock2 /\
            (String.eqb (fst kd) UPTIME_SENSOR = false ->
             value_fn (snd kd) c mac clock1 = value_fn (snd kd) c mac clock2))
         (CLIENT_ENTITY_DESCRIPTIONS ++ DEVICE_ENTITY_DESCRIPTIONS).
Proof.
  unfold CLIENT_ENTITY_DESCRIPTIONS, DEVICE_ENTITY_DESCRIPTIONS. cbn [app].
  repeat constructor; cbn [fst snd value_fn supported_fn];
    try (intros E; vm_compute in E; discriminate E);
    try intros _; unfold_value_fns; unfold bind, getitem, contains, ret, raise;
    repeat match goal with
           | |- context [?d !! ?k] => destruct (d !! k)
           end; reflexivity.
Qed.

(** X5: the kind of value a sensor publishes fits its description. A
    descriptor with the timestamp device class has no unit and publishes a
    datetime or None; every other descriptor has a unit, no device class,
    and publishes a number, an integer when the unit is percent or
    clients. No sensor but the uptime ones ever publishes None. *)
Theorem value_kind_fits_description :
  Forall (fun kd => forall c mac clock v,
            value_fn (snd kd) c mac clock = Ok v ->
            match device_class (snd kd), native_unit_of_measurement (snd kd) with
            | Some DEVICE_CLASS_TIMESTAMP, None =>
                fst kd = UPTIME_SENSOR /\ is_timestamp_or_none v = true
            | None, Some UnitOfInformation_MEGABYTES
            | None, Some UnitOfDataRate_MEGABYTES_PER_SECOND =>
                is_number v = true
            | None, Some PERCENTAGE
            | None, Some CLIENTS =>
                exists n, v = VInt n
            | _, _ => False
            end)
         (CLIENT_ENTITY_DESCRIPTIONS ++ DEVICE_ENTITY_DESCRIPTIONS).
Proof.
  unfold CLIENT_ENTITY_DESCRIPTIONS, DEVICE_ENTITY_DESCRIPTIONS. cbn [app].
  each_entry;
    cbn [fst snd value_fn device_class native_unit_of_measurement];
    unfold_value_fns; unfold bind, getitem, contains, ret, raise, dt_util_now;
    intros c mac clock v;
    repeat match goal with
           | |- context [?d !! ?k] => destruct (d !! k)
           end;
    intros E; inversion E; subst; try reflexivity; eauto.
Qed.

(** X6: a supported predicate either is constant or subscripts the device
    mapping. The predicates of all client descriptors and of the device
    descriptors that are not gated on a radio band return True on every
    state and MAC, known or not; those of the ten band-gated descriptors
    raise [KeyError(mac)] for a MAC absent from
    [controller.api.devices]. *)
Theorem supported_fn_constant_or_keyerror :
  Forall (fun kd => forall c mac clock,
            supported_fn (snd kd) c mac clock = Ok true)
         CLIENT_ENTITY_DESCRIPTIONS /\
  Forall (fun kd => forall c mac clock,
            if band_gated (fst kd)
            then match devices (api c) !! mac with
                 | Some r => is_ok (supported_fn (snd kd) c mac clock) = true
                 | None => supported_fn (snd kd) c mac clock = Raise (KeyError mac)
                 end
            else supported_fn (snd kd) c mac clock = Ok true)
         DEVICE_ENTITY_DESCRIPTIONS /\
  length (filter (fun kd => band_gated (fst kd) = true) DEVICE_ENTITY_DESCRIPTIONS)
  = 10%nat.
Proof.
  split; [|split].
  - unfold CLIENT_ENTITY_DESCRIPTIONS. repeat constructor.
  - unfold DEVICE_ENTITY_DESCRIPTIONS.
    repeat constructor; intros c mac clock; cbn [fst snd supported_fn];
      (change (band_gated _) with true || change (band_gated _) with false);
      cbv iota; try reflexivity;
      unfold bind, getitem, ret, raise; destruct (devices (api c) !! mac);
      reflexivity.
  - vm_compute. reflexivity.
Qed.

(** ** Life of an entity *)

Lemma py_ne_refl v : py_ne v v = false.
Proof. unfold py_ne. now rewrite py_eq_refl. Qed.

(** A refresh that returns has read a value and taken one of the two
    branches. *)
Lemma async_update_inv self controller clock self' evs :
  async_update self controller clock = Ok (self', evs) ->
  exists v,
    value_fn (entity_description self) controller (_mac self) clock = Ok v /\
    ((py_ne v (native_value self) = true /\
      self' = set_attr_native_value self v /\ evs = [SuperAsyncUpdate]) \/
     (py_ne v (native_value self) = false /\ self' = self /\ evs = [])).
Proof.
  intros H.
  destruct (value_fn (entity_description self) controller (_mac self) clock)
    as [v|e] eqn:E.
  - exists v. split; [reflexivity|].
    rewrite (async_update_ok _ _ _ _ E) in H.
    destruct (py_ne v (native_value self)); inversion H; subst; auto.
  - rewrite (async_update_raise _ _ _ _ E) in H. discriminate H.
Qed.

Lemma init_inv mac controller d clock e :
  init mac controller d clock = Ok e ->
  exists v, value_fn d controller mac clock = Ok v /\ e = entity_of d mac v.
Proof.
  intros H. destruct (value_fn d controller mac clock) as [v|x] eqn:E.
  - exists v. rewrite (init_ok _ _ _ _ _ E) in H. inversion H. auto.
  - unfold init in H. rewrite (bind_raise _ _ _ _ E) in H. discriminate H.
Qed.

Lemma init_raise mac controller d clock x :
  value_fn d controller mac clock = Raise x ->
  init mac controller d clock = Raise x.
Proof. intros H. unfold init. now rewrite (bind_raise _ _ _ _ H). Qed.

(** X7: refreshing is idempotent. Once [async_update] has returned, a
    second [async_update] on the same controller state at the same time
    propagates nothing and leaves the entity as the first one left it. *)
Theorem async_update_idempotent self controller clock self' evs :
  async_update self controller clock = Ok (self', evs) ->
  async_update self' controller clock = Ok (self', []).
Proof.
  intros H. destruct (async_update_inv _ _ _ _ _ H) as (v & Hv & [(_ & -> & _)|(N & -> & _)]).
  - rewrite (async_update_ok (set_attr_native_value self v) controller clock v Hv).
    unfold native_value. cbn [set_attr_native_value _attr_native_value].
    now rewrite py_ne_refl.
  - rewrite (async_update_ok _ _ _ _ Hv). now rewrite N.
Qed.

(** The "rx" entity of "C1" has just been refreshed from 0 to 2.5. *)
Lemma async_update_idempotent_witness :
  exists d, table_get CLIENT_ENTITY_DESCRIPTIONS RX_SENSOR = Some d /\
    async_update (entity_of d "C1" (VFloat (2500000 # 1000000))) sample_controller clock0
    = Ok (entity_of d "C1" (VFloat (2500000 # 1000000)), []).
Proof.
  eexists. split; [reflexivity|].
  match goal with
  | |- async_update (entity_of ?d _ _) _ _ = _ =>
      apply (async_update_idempotent (entity_of d "C1" (VInt 0)) sample_controller
               clock0 _ [SuperAsyncUpdate])
  end.
  vm_compute. reflexivity.
Defined.

(** X8: a freshly built entity is up to date. If the constructor returns
    an entity, an [async_update] on the same controller state at the same
    time propagates nothing and leaves it unchanged. *)
Theorem fresh_entity_is_up_to_date mac controller d clock e :
  init mac controller d clock = Ok e ->
  async_update e controller clock = Ok (e, []).
Proof.
  intros H. destruct (init_inv _ _ _ _ _ H) as (v & Hv & ->).
  rewrite (async_update_ok (entity_of d mac v) controller clock v Hv).
  unfold native_value. cbn [entity_of _attr_native_value].
  now rewrite py_ne_refl.
Qed.

(** The uptime entity of access point "AP". *)
Lemma fresh_entity_is_up_to_date_witness :
  exists d, table_get DEVICE_ENTITY_DESCRIPTIONS UPTIME_SENSOR = Some d /\
    async_update (entity_of d "AP" (VDatetime (datetime_sub clock0 (timedelta_seconds 3600))))
      sample_controller clock0
    = Ok (entity_of d "AP" (VDatetime (datetime_sub clock0 (timedelta_seconds 3600))), []).
Proof.
  eexists. split; [reflexivity|].
  match goal with
  | |- async_update (entity_of ?d _ _) _ _ = _ =>
      apply (fresh_entity_is_up_to_date "AP" sample_controller d clock0)
  end.
  vm_compute. reflexivity.
Defined.

Lemma refreshes_keep_binding e e' :
  rtc refresh_step e e' ->
  _mac e' = _mac e /\ entity_description e' = entity_description e.
Proof.
  induction 1 as [x | x y z (c & t & evs & S) _ IH].
  - split; reflexivity.
  - destruct (async_update_inv _ _ _ _ _ S)
      as (w & _ & [(_ & -> & _)|(_ & -> & _)]); exact IH.
Qed.

(** X9: an entity stays bound to its MAC and its descriptor for life.
    After the constructor and any number of refreshes, on whatever
    controller states and at whatever times, the entity still carries the
    MAC and the descriptor it was built with. *)
Theorem entity_binding_is_invariant mac controller d clock e e' :
  init mac controller d clock = Ok e ->
  rtc refresh_step e e' ->
  _mac e' = mac /\ entity_description e' = d.
Proof.
  intros H R. destruct (init_inv _ _ _ _ _ H) as (v & _ & ->).
  exact (refreshes_keep_binding _ _ R).
Qed.

(** The "rx" entity of "C1" is built while the client is away and
    refreshed when it is connected. *)
Lemma entity_binding_is_invariant_witness :
  exists d, table_get CLIENT_ENTITY_DESCRIPTIONS RX_SENSOR = Some d /\
    init "C1" empty_controller d clock0 = Ok (entity_of d "C1" (VInt 0)) /\
    rtc refresh_step (entity_of d "C1" (VInt 0))
                     (entity_of d "C1" (VFloat (2500000 # 1000000))) /\
    _mac (entity_of d "C1" (VFloat (2500000 # 1000000))) = "C1" /\
    entity_description (entity_of d "C1" (VFloat (2500000 # 1000000))) = d.
Proof.
  eexists. split; [reflexivity|].
  match goal with
  | |- init _ _ ?d _ = _ /\ _ =>
      assert (I : init "C1" empty_controller d clock0 = Ok (entity_of d "C1" (VInt 0)))
        by (vm_compute; reflexivity);
      assert (R : rtc refresh_step (entity_of d "C1" (VInt 0))
                    (entity_of d "C1" (VFloat (2500000 # 1000000))))
        by (apply rtc_once; exists sample_controller, clock0, [SuperAsyncUpdate];
            vm_compute; reflexivity);
      exact (conj I (conj R (entity_binding_is_invariant _ _ _ _ _ _ I R)))
  end.
Defined.

(** X10: a device entity needs its device. For a MAC absent from
    [controller.api.devices], building an entity from any device
    descriptor raises [KeyError(mac)], and so does refreshing one that
    already exists, whatever it caches; nothing is propagated. *)
Theorem device_entity_needs_its_device controller mac clock :
  devices (api controller) !! mac = None ->
  Forall (fun kd =>
            init mac controller (snd kd) clock = Raise (KeyError mac) /\
            forall cached,
              async_update (entity_of (snd kd) mac cached) controller clock
              = Raise (KeyError mac))
         DEVICE_ENTITY_DESCRIPTIONS.
Proof.
  intros H. pose proof (device_absent controller mac clock H) as A.
  rewrite Forall_forall in A. apply Forall_forall. intros kd Hkd. split.
  - apply init_raise. now apply A.
  - intros cached. apply async_update_raise. cbn [entity_of entity_description _mac].
    now apply A.
Qed.

(** The access point "AP" has dropped out of the controller's devices. *)
Lemma device_entity_needs_its_device_witness :
  Forall (fun kd =>
            init "AP" (with_devices sample_controller ∅) (snd kd) clock0
            = Raise (KeyError "AP") /\
            forall cached,
              async_update (entity_of (snd kd) "AP" cached)
                (with_devices sample_controller ∅) clock0
              = Raise (KeyError "AP"))
         DEVICE_ENTITY_DESCRIPTIONS.
Proof.
  apply (device_entity_needs_its_device (with_devices sample_controller ∅) "AP" clock0).
  reflexivity.
Defined.

(** X11: a connected client that is not a known client gets only part of
    its entities. For a MAC in [controller.api.clients] but not in
    [controller.api.known_clients], the constructor raises [KeyError(mac)]
    on the "downloaded" and "uploaded" descriptors and returns an entity
    on the "rx", "tx" and "uptime" descriptors. *)
Theorem connected_unknown_client_entities controller mac clock r :
  clients (api controller) !! mac = Some r ->
  known_clients (api controller) !! mac = None ->
  Forall (fun kd =>
            if guards_absence (fst kd)
            then is_ok (init mac controller (snd kd) clock) = true
            else init mac controller (snd kd) clock = Raise (KeyError mac))
         CLIENT_ENTITY_DESCRIPTIONS.
Proof.
  intros Hc Hk.
  destruct (known_client_absent controller mac clock Hk) as (D & U).
  destruct (client_present controller mac clock r Hc) as (R & T & P).
  unfold CLIENT_ENTITY_DESCRIPTIONS.
  each_entry; cbn [fst snd];
    (change (guards_absence _) with true || change (guards_absence _) with false);
    cbv iota.
  - now apply init_raise.
  - now apply init_raise.
  - erewrite init_ok by exact R. reflexivity.
  - erewrite init_ok by exact T. reflexivity.
  - erewrite init_ok by exact P. reflexivity.
Qed.

(** "C7" is connected but was never recorded as a known client. *)
Lemma connected_unknown_client_entities_witness :
  Forall (fun kd =>
            if guards_absence (fst kd)
            then is_ok (init "C7"
                          (with_clients sample_controller {[ "C7" := sample_client ]})
                          (snd kd) clock0) = true
            else init "C7"
                   (with_clients sample_controller {[ "C7" := sample_client ]})
                   (snd kd) clock0
                 = Raise (KeyError "C7"))
         CLIENT_ENTITY_DESCRIPTIONS.
Proof.
  apply (connected_unknown_client_entities
           (with_clients sample_controller {[ "C7" := sample_client ]})
           "C7" clock0 sample_client); reflexivity.
Defined.

(** X12: the device uptime entity keeps quiet only while wall clock and
    uptime move in step. Take an entity built when the device reported
    [uptime r1] at clock reading [clock1] and refreshed when it reports
    [uptime r2] at clock reading [clock2], both readings carrying the same
    time zone object. It propagates nothing exactly when the wall-clock
    readings are as far apart as the uptimes, to the microsecond; in every
    other case (a reboot, a poll that is not a whole number of seconds
    later, a wall clock set back or forward for daylight saving time) it
    republishes the wall-clock reading of [clock2] moved back by
    [uptime r2] seconds. *)
Theorem device_uptime_republished_unless_in_step
    d c1 c2 mac r1 r2 clock1 clock2 e :
  table_get DEVICE_ENTITY_DESCRIPTIONS UPTIME_SENSOR = Some d ->
  devices (api c1) !! mac = Some r1 ->
  devices (api c2) !! mac = Some r2 ->
  same_tzinfo (dt_tzinfo clock2) (dt_tzinfo clock1) = true ->
  init mac c1 d clock1 = Ok e ->
  exists self' evs,
    async_update e c2 clock2 = Ok (self', evs) /\
    (evs = [] <->
     dt_wall clock2 - dt_wall clock1
     = (Device.uptime r2 - Device.uptime r1) * 1000000) /\
    (evs <> [] ->
     evs = [SuperAsyncUpdate] /\
     native_value self'
     = VDatetime (datetime_sub clock2 (timedelta_seconds (Device.uptime r2)))).
Proof.
  intros Hd H1 H2 Hz Hi.
  assert (F : value_fn d = device_uptime_value_fn).
  { vm_compute in Hd. injection Hd as <-. reflexivity. }
  clear Hd.
  destruct (init_inv _ _ _ _ _ Hi) as (v & Hv & ->).
  rewrite F in Hv. unfold device_uptime_value_fn in Hv.
  unfold bind, dt_util_now, getitem, ret in Hv. rewrite H1 in Hv.
  injection Hv as <-.
  match goal with
  | |- context [async_update ?s _ _] =>
      assert (V : value_fn (entity_description s) c2 (_mac s) clock2
                  = Ok (VDatetime
                          (datetime_sub clock2 (timedelta_seconds (Device.uptime r2)))))
  end.
  { cbn [entity_of entity_description _mac]. rewrite F.
    unfold device_uptime_value_fn, bind, dt_util_now, getitem, ret. now rewrite H2. }
  rewrite (async_update_ok _ _ _ _ V).
  unfold native_value, py_ne. cbn [entity_of _attr_native_value py_eq].
  rewrite datetime_eq_same_tzinfo by exact Hz.
  cbn [dt_wall datetime_sub timedelta_seconds td_micros].
  destruct (Z.eqb_spec (dt_wall clock2 - Device.uptime r2 * 1000000)
                       (dt_wall clock1 - Device.uptime r1 * 1000000)) as [E|E];
    cbn [negb]; do 2 eexists; (split; [reflexivity|]); split.
  - split; [intros _; lia | reflexivity].
  - intros K. now contradiction K.
  - split; [discriminate | intros K; exfalso; apply E; lia].
  - intros _. split; reflexivity.
Qed.

(** "AP" had been up for an hour at 02:59:59 summer time in Amsterdam;
    one hour later it has been up for two hours and the wall clock, set
    back, reads 02:59:59 again. The readings are zero seconds apart, the
    uptimes 3600: the entity republishes. *)
Lemma device_uptime_republished_unless_in_step_witness :
  exists d, table_get DEVICE_ENTITY_DESCRIPTIONS UPTIME_SENSOR = Some d /\
    exists self' evs,
      async_update
        (entity_of d "AP"
           (VDatetime (datetime_sub amsterdam_first_pass (timedelta_seconds 3600))))
        (with_devices sample_controller {[ "AP" := with_uptime sample_device 7200 ]})
        amsterdam_second_pass
      = Ok (self', evs) /\
      (evs = [] <->
       dt_wall amsterdam_second_pass - dt_wall amsterdam_first_pass
       = (Device.uptime (with_uptime sample_device 7200) - Device.uptime sample_device)
         * 1000000) /\
      (evs <> [] ->
       evs = [SuperAsyncUpdate] /\
       native_value self'
       = VDatetime
           (datetime_sub amsterdam_second_pass
              (timedelta_seconds (Device.uptime (with_uptime sample_device 7200))))).
Proof.
  eexists. split; [reflexivity|].
  match goal with
  | |- context [async_update (entity_of ?d _ _) ?c2 _] =>
      apply (device_uptime_republished_unless_in_step d sample_controller c2 "AP"
               sample_device (with_uptime sample_device 7200)
               amsterdam_first_pass amsterdam_second_pass
               (entity_of d "AP"
                  (VDatetime
                     (datetime_sub amsterdam_first_pass (timedelta_seconds 3600)))))
  end; reflexivity.
Defined.

(** In UTC, seven seconds later with an uptime seven seconds longer, the
    same entity keeps quiet. *)
Example device_uptime_quiet_in_step :
  exists d, table_get DEVICE_ENTITY_DESCRIPTIONS UPTIME_SENSOR = Some d /\
    init "AP" sample_controller d clock0
    = Ok (entity_of d "AP" (VDatetime (datetime_sub clock0 (timedelta_seconds 3600)))) /\
    async_update
      (entity_of d "AP" (VDatetime (datetime_sub clock0 (timedelta_seconds 3600))))
      (with_devices sample_controller {[ "AP" := sample_device_later ]}) clock7
    = Ok (entity_of d "AP" (VDatetime (datetime_sub clock0 (timedelta_seconds 3600))),
          []).
Proof.
  eexists. split; [reflexivity|]. split; vm_compute; reflexivity.
Qed.

(** A refresh that reads [v] leaves a cache equal to [v], and propagates
    an update exactly when the cache was not yet equal to [v]. *)
Lemma async_update_reaches self controller clock v :
  value_fn (entity_description self) controller (_mac self) clock = Ok v ->
  exists self' evs,
    async_update self controller clock = Ok (self', evs) /\
    py_eq (native_value self') v = true /\
    (evs = [SuperAsyncUpdate] <-> py_eq (native_value self) v = false).
Proof.
  intros H. rewrite (async_update_ok _ _ _ _ H). unfold py_ne.
  rewrite (py_eq_sym v (native_value self)).
  destruct (py_eq (native_value self) v) eqn:E; cbn [negb]; do 2 eexists;
    (split; [reflexivity|]); split.
  - exact E.
  - split; discriminate.
  - apply py_eq_refl.
  - split; reflexivity.
Qed.

(** X13: when a client disconnects, its rate sensors fall to zero and its
    uptime sensor to None. For a MAC absent from [controller.api.clients],
    refreshing the "rx", "tx" or "uptime" entity returns and leaves a cache
    equal to 0 (rx, tx) or None (uptime); an update is propagated exactly
    when the cache was not already equal to that fallback. *)
Theorem disconnected_client_falls_back controller mac clock cached :
  clients (api controller) !! mac = None ->
  Forall (fun kd =>
            guards_absence (fst kd) = true ->
            exists self' evs,
              async_update (entity_of (snd kd) mac cached) controller clock
              = Ok (self', evs) /\
              py_eq (native_value self')
                    (if String.eqb (fst kd) UPTIME_SENSOR then VNone else VInt 0)
              = true /\
              (evs = [SuperAsyncUpdate] <->
               py_eq cached (if String.eqb (fst kd) UPTIME_SENSOR then VNone else VInt 0)
               = false))
         CLIENT_ENTITY_DESCRIPTIONS.
Proof.
  intros H. destruct (client_absent controller mac clock H) as (R & T & U).
  unfold CLIENT_ENTITY_DESCRIPTIONS.
  each_entry; cbn [fst snd]; intros G; try (vm_compute in G; discriminate G);
    clear G; (change (String.eqb _ _) with true || change (String.eqb _ _) with false);
    cbv iota.
  - apply async_update_reaches. exact R.
  - apply async_update_reaches. exact T.
  - apply async_update_reaches. exact U.
Qed.

(** "C2" is not connected; its sensors cached a rate of 2.5. *)
Lemma disconnected_client_falls_back_witness :
  Forall (fun kd =>
            guards_absence (fst kd) = true ->
            exists self' evs,
              async_update (entity_of (snd kd) "C2" (VFloat (2500000 # 1000000)))
                sample_controller clock0
              = Ok (self', evs) /\
              py_eq (native_value self')
                    (if String.eqb (fst kd) UPTIME_SENSOR then VNone else VInt 0)
              = true /\
              (evs = [SuperAsyncUpdate] <->
               py_eq (VFloat (2500000 # 1000000))
                     (if String.eqb (fst kd) UPTIME_SENSOR then VNone else VInt 0)
               = false))
         CLIENT_ENTITY_DESCRIPTIONS.
Proof.
  apply (disconnected_client_falls_back sample_controller "C2" clock0
           (VFloat (2500000 # 1000000))).
  reflexivity.
Defined.

(** ** The tables *)

(** X14: each sensor is allowed exactly when its group option, the
    tracking switch of its table and, for clients, the client filter all
    hold. The group option is [option_client_uptime_sensor] for the client
    "uptime" sensor and [option_client_bandwidth_sensors] for the other
    client sensors; for devices it is the bandwidth option for
    downloaded/uploaded/rx/tx, the statistics option for cpu, memory and
    uptime, the clients option for the four client counts and the radio
    utilization option for the nine utilization sensors. *)
Theorem allowed_fn_by_option_group :
  Forall (fun kd => forall c mac,
            allowed_fn (snd kd) c mac
            = client_group_option (fst kd) c && option_track_clients c
              && is_client_allowed c mac)
         CLIENT_ENTITY_DESCRIPTIONS /\
  Forall (fun kd => forall c mac,
            allowed_fn (snd kd) c mac
            = device_group_option (fst kd) c && option_track_devices c)
         DEVICE_ENTITY_DESCRIPTIONS.
Proof.
  unfold CLIENT_ENTITY_DESCRIPTIONS, DEVICE_ENTITY_DESCRIPTIONS.
  split; each_entry; intros c mac; reflexivity.
Qed.

(** X15: the two tables describe the sensors they share alike, and no
    table names two sensors alike. Every key of the client table is a key
    of the device table, bound there to a descriptor with the same domain,
    unit, device class and display name; within each table the display
    names are pairwise distinct, and a display name does not depend on the
    arguments of [name_fn]. *)
Theorem shared_sensors_described_alike :
  Forall (fun kd =>
            exists d', table_get DEVICE_ENTITY_DESCRIPTIONS (fst kd) = Some d' /\
                       domain d' = domain (snd kd) /\
                       native_unit_of_measurement d'
                       = native_unit_of_measurement (snd kd) /\
                       device_class d' = device_class (snd kd) /\
                       display_name d' = display_name (snd kd))
         CLIENT_ENTITY_DESCRIPTIONS /\
  NoDup ((fun kd => display_name (snd kd)) <$> CLIENT_ENTITY_DESCRIPTIONS) /\
  NoDup ((fun kd => display_name (snd kd)) <$> DEVICE_ENTITY_DESCRIPTIONS) /\
  Forall (fun kd => forall c mac, name_fn (snd kd) c mac = display_name (snd kd))
         (CLIENT_ENTITY_DESCRIPTIONS ++ DEVICE_ENTITY_DESCRIPTIONS).
Proof.
  split; [|split; [|split]].
  - unfold CLIENT_ENTITY_DESCRIPTIONS.
    each_entry; cbn [fst snd]; eexists; (split; [reflexivity|]); repeat split.
  - apply (bool_decide_unpack _). vm_compute. exact I.
  - apply (bool_decide_unpack _). vm_compute. exact I.
  - unfold CLIENT_ENTITY_DESCRIPTIONS, DEVICE_ENTITY_DESCRIPTIONS. cbn [app].
    each_entry; intros c mac; reflexivity.
Qed.

(** ** Platform setup *)

(** X16: setup follows the tracking switches. [async_setup_entry]
    subscribes [items_added] to both controller signals whatever the
    options are; it makes a call about the client table exactly when
    [option_track_clients] is set and one about the device table exactly
    when [option_track_devices] is set, and so does [items_added]. The
    client table only ever travels with the clients and known-clients
    mappings and the device table only with the devices mapping; entities
    are restored only at setup, and no call is made twice. *)
Theorem setup_follows_tracking_switches controller :
  (forall s, In (AsyncDispatcherConnect s) (async_setup_entry controller) /\
             In (AsyncOnUnload s) (async_setup_entry controller)) /\
  existsb is_client_call (async_setup_entry controller)
  = option_track_clients controller /\
  existsb is_device_call (async_setup_entry controller)
  = option_track_devices controller /\
  existsb is_client_call (items_added controller) = option_track_clients controller /\
  existsb is_device_call (items_added controller) = option_track_devices controller /\
  Forall (fun call =>
            (is_client_call call = true -> ~ In ApiDevices (call_mappings call)) /\
            (is_device_call call = true -> call_mappings call = [ApiDevices]))
         (async_setup_entry controller) /\
  Forall (fun call => call_mappings call <> [ApiClients; ApiKnownClients])
         (items_added controller) /\
  NoDup (async_setup_entry controller).
Proof.
  unfold async_setup_entry, items_added.
  destruct (option_track_clients controller), (option_track_devices controller);
    cbn [flat_map app existsb is_client_call is_device_call call_table orb].
  all: split; [intros []; cbn; tauto|].
  all: repeat (split; [reflexivity|]).
  all: split; [each_entry; cbn; split; intros; try discriminate; try reflexivity;
               intuition discriminate|].
  all: split; [each_entry; cbn; discriminate|].
  all: apply NoDup_ListNoDup; repeat constructor; cbn; intuition discriminate.
Qed.
